(** * Verisign zone-count logger: a shallow embedding of [main.py]

    The program fetches two domain-name counts, compares them with the last
    row of [data.csv] and appends a dated row when they differ.

    What is modelled, and how:
    - the log file is its decoded text ([None] when the file is absent); a
      character is a code point below 256, which is where [str.lower] and
      [int] are modelled exactly;
    - [csv.reader] and [csv.writer] are the state machines of the [excel]
      dialect (comma delimiter, double-quote character, doubled quotes, no
      escape character, line terminator CR LF, minimal quoting, not strict);
    - values coming out of [json.loads] are dynamically typed; floating point
      numbers and the text of containers are left to the interpreter, which
      is a parameter of the development (classes [PyFloat] and [PyLib]);
    - the file system, the clock, the network and standard output form the
      state of a small state-and-exception monad.

    Resource limits of the interpreter (memory, [csv.field_size_limit],
    [sys.set_int_max_str_digits]) and I/O errors other than a missing file
    are outside the model. *)

From Stdlib Require Import ZArith NArith List String Ascii Bool Lia.
Import ListNotations.
Local Open Scope string_scope.
Local Open Scope Z_scope.

Set Implicit Arguments.

(** ** Exceptions and results *)

Inductive exn : Type :=
| URLError
| UnicodeDecodeError
| JSONDecodeError
| KeyError (key : string)
| TypeError
| OverflowError
| ValueError
| IndexError
| FileNotFoundError
| CsvError.

Inductive result (A : Type) : Type :=
| Ok (a : A)
| Raise (e : exn).
Arguments Ok {A} a.
Arguments Raise {A} e.

Definition rbind {A B} (r : result A) (k : A -> result B) : result B :=
  match r with
  | Ok a => k a
  | Raise e => Raise e
  end.

Definition is_FileNotFoundError (e : exn) : bool :=
  match e with FileNotFoundError => true | _ => false end.

Definition is_ValueError_or_IndexError (e : exn) : bool :=
  match e with ValueError | IndexError => true | _ => false end.

(** [xs[i]] for [0 <= i]; outside the list Python raises [IndexError]. *)
Definition index {A} (xs : list A) (i : nat) : result A :=
  match nth_error xs i with
  | Some x => Ok x
  | None => Raise IndexError
  end.

(** ** Characters and strings *)

Module Str.

Definition ord (c : ascii) : N := N_of_ascii c.

(** [str.lower] on one character: A-Z, and the upper-case letters of the
    Latin-1 block (U+00C0..U+00DE without the multiplication sign). *)
Definition lower_char (c : ascii) : ascii :=
  let n := ord c in
  if ((65 <=? n) && (n <=? 90) ||
      (192 <=? n) && (n <=? 222) && negb (n =? 215))%N
  then ascii_of_N (n + 32) else c.

Fixpoint lower (s : string) : string :=
  match s with
  | EmptyString => EmptyString
  | String c r => String (lower_char c) (lower r)
  end.

(** White space as [int] sees it: the C locale's [isspace] for ASCII, and
    the Unicode spaces NEL and NBSP above it. *)
Definition is_space (c : ascii) : bool :=
  let n := ord c in
  ((9 <=? n) && (n <=? 13) || (n =? 32) || (n =? 133) || (n =? 160))%N.

Definition is_digit (c : ascii) : bool :=
  let n := ord c in ((48 <=? n) && (n <=? 57))%N.

Definition digit_value (c : ascii) : Z := Z.of_N (ord c) - 48.

Definition digit_of (n : N) : ascii := ascii_of_N (48 + n).

Fixpoint forallb (p : ascii -> bool) (s : string) : bool :=
  match s with
  | EmptyString => true
  | String c r => p c && forallb p r
  end.

Fixpoint lstrip (s : string) : string :=
  match s with
  | String c r => if is_space c then lstrip r else s
  | EmptyString => EmptyString
  end.

(** [sep.join(xs)] *)
Fixpoint join (sep : string) (xs : list string) : string :=
  match xs with
  | [] => ""
  | [x] => x
  | x :: rest => x ++ sep ++ join sep rest
  end.

(** The last character is a line feed, or the text is empty. *)
Fixpoint ends_lf (s : string) : bool :=
  match s with
  | EmptyString => true
  | String c EmptyString => (c =? "010")%char
  | String _ r => ends_lf r
  end.

End Str.

(** ** Integers and their decimal text *)

Module PyInt.
Import Str.

(** The digits and single underscores of an integer literal, after its
    first digit has been seen.  [prev_us] tells that the previous character
    was an underscore; the scan stops at the first other character. *)
Fixpoint scan_digits (acc : Z) (prev_us : bool) (s : string)
  : option (Z * string) :=
  match s with
  | EmptyString => if prev_us then None else Some (acc, EmptyString)
  | String c r =>
      if is_digit c then scan_digits (10 * acc + digit_value c) false r
      else if (c =? "_")%char then
             if prev_us then None else scan_digits acc true r
           else if prev_us then None else Some (acc, s)
  end.

(** [int(s)] for a string [s], base 10: surrounding white space, an
    optional sign, digits with single underscores between them.  [None]
    stands for [ValueError]. *)
Definition int (s : string) : option Z :=
  let s1 := lstrip s in
  let '(neg, s2) :=
    match s1 with
    | String "+" r => (false, r)
    | String "-" r => (true, r)
    | _ => (false, s1)
    end in
  match s2 with
  | String c _ =>
      if is_digit c then
        match scan_digits 0 false s2 with
        | Some (n, rest) =>
            if forallb is_space rest
            then Some (if neg then - n else n) else None
        | None => None
        end
      else None
  | EmptyString => None
  end.

(** Decimal digits of a natural number, most significant first, in front
    of [acc]. *)
Fixpoint digits (fuel : nat) (n : N) (acc : string) : string :=
  match fuel with
  | O => acc
  | S f =>
      let acc' := String (digit_of (n mod 10)) acc in
      if (n <? 10)%N then acc' else digits f (n / 10)%N acc'
  end.

Definition str_N (n : N) : string := digits (S (N.size_nat n)) n "".

(** [str(z)] *)
Definition str (z : Z) : string :=
  match z with
  | Z0 => "0"
  | Zpos p => str_N (Npos p)
  | Zneg p => "-" ++ str_N (Npos p)
  end.

Fixpoint zeros (n : nat) : string :=
  match n with
  | O => ""
  | S m => String "0" (zeros m)
  end.

(** Zero padding to a minimal width, as [%04d] and [%02d] do. *)
Definition pad (width : nat) (s : string) : string :=
  zeros (width - String.length s) ++ s.

(** Digit groups of three, from the right: [format(n, ",")]. *)
Fixpoint group3 (fuel : nat) (s : string) : string :=
  match fuel with
  | O => s
  | S f =>
      let n := String.length s in
      if (n <=? 3)%nat then s
      else group3 f (substring 0 (n - 3) s) ++ "," ++ substring (n - 3) 3 s
  end.

Definition format_comma (z : Z) : string :=
  let d := str (Z.abs z) in
  (if z <? 0 then "-" else "") ++ group3 (String.length d) d.

End PyInt.

(** ** The csv module, [excel] dialect *)

Module Csv.

Definition CR : ascii := "013"%char.
Definition LF : ascii := "010"%char.
Definition QUOTE : ascii := "034"%char.
Definition DELIMITER : ascii := ","%char.
Definition CRLF : string := String CR (String LF "").

Definition is_newline (c : ascii) : bool := ((c =? LF) || (c =? CR))%char.

(** *** Lines of a file opened without newline translation

    Lines end at LF, at CR, or at CR LF, and keep their terminator; a last
    line without terminator is a line too. *)
Fixpoint readlines (s : string) : list string :=
  match s with
  | EmptyString => []
  | String c r =>
      if (c =? LF)%char then String LF "" :: readlines r
      else if (c =? CR)%char then
        match r with
        | String c' r' =>
            if (c' =? LF)%char then CRLF :: readlines r'
            else String CR "" :: readlines r
        | EmptyString => [String CR ""]
        end
      else
        match readlines r with
        | [] => [String c ""]
        | l :: ls => String c l :: ls
        end
  end.

(** *** The reader

    The states of [_csv.c] that the dialect can reach; the three escape
    states need an escape character, and [excel] has none. *)
Inductive ParserState : Type :=
| START_RECORD
| START_FIELD
| IN_FIELD
| IN_QUOTED_FIELD
| QUOTE_IN_QUOTED_FIELD
| EAT_CRNL.

Definition state_eqb (a b : ParserState) : bool :=
  match a, b with
  | START_RECORD, START_RECORD | START_FIELD, START_FIELD
  | IN_FIELD, IN_FIELD | IN_QUOTED_FIELD, IN_QUOTED_FIELD
  | QUOTE_IN_QUOTED_FIELD, QUOTE_IN_QUOTED_FIELD | EAT_CRNL, EAT_CRNL => true
  | _, _ => false
  end.

Record Reader : Type := {
  state : ParserState;
  fields : list string;   (* the fields of the record being read *)
  field : string          (* the characters of the field being read *)
}.

(** What the parser is fed: a character of a line, or the end of a line. *)
Inductive input : Type :=
| Char (c : ascii)
| EOL.

Definition parse_reset : Reader :=
  {| state := START_RECORD; fields := []; field := "" |}.

Definition set_state (s : ParserState) (r : Reader) : Reader :=
  {| state := s; fields := fields r; field := field r |}.

Definition parse_save_field (r : Reader) : Reader :=
  {| state := state r; fields := (fields r ++ [field r])%list; field := "" |}.

Definition parse_add_char (r : Reader) (c : ascii) : Reader :=
  {| state := state r; fields := fields r; field := field r ++ String c "" |}.

(** The case [START_FIELD], which [START_RECORD] falls through to. *)
Definition start_field (r : Reader) (c : input) : Reader :=
  match c with
  | EOL => set_state START_RECORD (parse_save_field r)
  | Char ch =>
      if is_newline ch then set_state EAT_CRNL (parse_save_field r)
      else if (ch =? QUOTE)%char then set_state IN_QUOTED_FIELD r
      else if (ch =? DELIMITER)%char
           then set_state START_FIELD (parse_save_field r)
      else set_state IN_FIELD (parse_add_char r ch)
  end.

Definition parse_process_char (r : Reader) (c : input) : result Reader :=
  match state r with
  | START_RECORD =>
      match c with
      | EOL => Ok r
      | Char ch =>
          if is_newline ch then Ok (set_state EAT_CRNL r)
          else Ok (start_field r c)
      end
  | START_FIELD => Ok (start_field r c)
  | IN_FIELD =>
      match c with
      | EOL => Ok (set_state START_RECORD (parse_save_field r))
      | Char ch =>
          if is_newline ch then Ok (set_state EAT_CRNL (parse_save_field r))
          else if (ch =? DELIMITER)%char
               then Ok (set_state START_FIELD (parse_save_field r))
          else Ok (parse_add_char r ch)
      end
  | IN_QUOTED_FIELD =>
      match c with
      | EOL => Ok r
      | Char ch =>
          if (ch =? QUOTE)%char then Ok (set_state QUOTE_IN_QUOTED_FIELD r)
          else Ok (parse_add_char r ch)
      end
  | QUOTE_IN_QUOTED_FIELD =>
      match c with
      | EOL => Ok (set_state START_RECORD (parse_save_field r))
      | Char ch =>
          if (ch =? QUOTE)%char
          then Ok (set_state IN_QUOTED_FIELD (parse_add_char r ch))
          else if (ch =? DELIMITER)%char
               then Ok (set_state START_FIELD (parse_save_field r))
          else if is_newline ch
               then Ok (set_state EAT_CRNL (parse_save_field r))
          else Ok (set_state IN_FIELD (parse_add_char r ch))
      end
  | EAT_CRNL =>
      match c with
      | EOL => Ok (set_state START_RECORD r)
      | Char ch => if is_newline ch then Ok r else Raise CsvError
      end
  end.

(** One line: its characters, then [EOL]. *)
Fixpoint feed_line (r : Reader) (line : string) : result Reader :=
  match line with
  | EmptyString => parse_process_char r EOL
  | String c rest =>
      rbind (parse_process_char r (Char c)) (fun r' => feed_line r' rest)
  end.

(** At the end of the input a record is still returned when a field has
    characters or a quoted field is open. *)
Definition pending (r : Reader) : bool :=
  negb (field r =? "")%string || state_eqb (state r) IN_QUOTED_FIELD.

(** [next(reader)]: lines are consumed until a record is complete.  The
    result is the record, or [None] at the end of the input, and the lines
    that are left. *)
Fixpoint reader_next_from (r : Reader) (lines : list string)
  : result (option (list string) * list string) :=
  match lines with
  | [] =>
      if pending r then Ok (Some (fields (parse_save_field r)), [])
      else Ok (None, [])
  | l :: ls =>
      rbind (feed_line r l) (fun r' =>
        if state_eqb (state r') START_RECORD then Ok (Some (fields r'), ls)
        else reader_next_from r' ls)
  end.

Definition reader_next (lines : list string) :=
  reader_next_from parse_reset lines.

(** [list(reader)]: every record, in order. *)
Fixpoint reader_list_from (r : Reader) (lines : list string)
  : result (list (list string)) :=
  match lines with
  | [] => if pending r then Ok [fields (parse_save_field r)] else Ok []
  | l :: ls =>
      rbind (feed_line r l) (fun r' =>
        if state_eqb (state r') START_RECORD
        then rbind (reader_list_from parse_reset ls)
                   (fun rows => Ok (fields r' :: rows))
        else reader_list_from r' ls)
  end.

Definition reader_list (lines : list string) :=
  reader_list_from parse_reset lines.

(** The lines of a text end a record: no quoted field is left open. *)
Fixpoint closed_from (r : Reader) (lines : list string) : bool :=
  match lines with
  | [] => state_eqb (state r) START_RECORD
  | l :: ls =>
      match feed_line r l with
      | Ok r' =>
          if state_eqb (state r') START_RECORD then closed_from parse_reset ls
          else closed_from r' ls
      | Raise _ => false
      end
  end.

(** A text that ends where a record ends: what is written after it starts
    a record of its own. *)
Definition well_terminated (text : string) : bool :=
  Str.ends_lf text && closed_from parse_reset (readlines text).

(** *** The writer *)

Definition special (c : ascii) : bool :=
  ((c =? DELIMITER) || (c =? QUOTE) || is_newline c)%char.

Fixpoint double_quotes (s : string) : string :=
  match s with
  | EmptyString => EmptyString
  | String c r =>
      if (c =? QUOTE)%char then String QUOTE (String QUOTE (double_quotes r))
      else String c (double_quotes r)
  end.

(** A field as it is written: quoted when it holds a special character. *)
Definition join_append (fld : string) : string :=
  if Str.forallb (fun c => negb (special c)) fld then fld
  else String QUOTE (double_quotes fld) ++ String QUOTE "".

(** [writer.writerow]: the text written for the cells of one row.  A row
    of one empty field is written as two quotes. *)
Definition writerow (cells : list string) : string :=
  match cells with
  | [EmptyString] => String QUOTE (String QUOTE CRLF)
  | _ => Str.join (String DELIMITER "") (map join_append cells) ++ CRLF
  end.

End Csv.

(** ** Python values *)

(** Floating point numbers, as the interpreter provides them. *)
Class PyFloat : Type := {
  pyfloat : Type;
  float_add : pyfloat -> pyfloat -> pyfloat;
  float_of_int : Z -> option pyfloat;      (* [None]: OverflowError *)
  float_eq_int : pyfloat -> Z -> bool;     (* [x == n] *)
  float_str : pyfloat -> string;           (* [str(x)] *)
  float_format_comma : pyfloat -> string   (* [format(x, ",")] *)
}.

(** What [json.loads] returns.  A dictionary is the list of its items, with
    the first binding of a key the one that counts. *)
#[local] Set Warnings "-register-all".
Inductive value `{PyFloat} : Type :=
| VNone
| VBool (b : bool)
| VInt (z : Z)
| VFloat (x : pyfloat)
| VStr (s : string)
| VList (xs : list value)
| VDict (items : list (string * value)).

(** The library functions the program calls and this development leaves to
    the interpreter. *)
Class PyLib `{PyFloat} : Type := {
  container_str : value -> string;          (* [str] of a list or dictionary *)
  utf8_decode : string -> option string;    (* [bytes.decode()] *)
  json_loads : string -> option value       (* [None]: JSONDecodeError *)
}.

Module Py.
Section Values.
Context `{F : PyFloat}.

Fixpoint dict_get (items : list (string * value)) (key : string)
  : option value :=
  match items with
  | [] => None
  | (k, v) :: rest => if (k =? key)%string then Some v else dict_get rest key
  end.

(** [obj[key]] for a string key. *)
Definition getitem (obj : value) (key : string) : result value :=
  match obj with
  | VDict items =>
      match dict_get items key with
      | Some v => Ok v
      | None => Raise (KeyError key)
      end
  | _ => Raise TypeError
  end.

(** An [int] or a [bool], as the integer it counts for. *)
Definition as_int (v : value) : option Z :=
  match v with
  | VInt z => Some z
  | VBool b => Some (if b then 1 else 0)
  | _ => None
  end.

Definition float_of (z : Z) : result pyfloat :=
  match float_of_int z with
  | Some x => Ok x
  | None => Raise OverflowError
  end.

(** [a + b] *)
Definition add (a b : value) : result value :=
  match as_int a, as_int b with
  | Some x, Some y => Ok (VInt (x + y))
  | Some x, None =>
      match b with
      | VFloat y => rbind (float_of x) (fun x' => Ok (VFloat (float_add x' y)))
      | _ => Raise TypeError
      end
  | None, Some y =>
      match a with
      | VFloat x => rbind (float_of y) (fun y' => Ok (VFloat (float_add x y')))
      | _ => Raise TypeError
      end
  | None, None =>
      match a, b with
      | VFloat x, VFloat y => Ok (VFloat (float_add x y))
      | VStr s, VStr t => Ok (VStr (s ++ t))
      | VList xs, VList ys => Ok (VList (xs ++ ys))
      | _, _ => Raise TypeError
      end
  end.

(** [n == v] for an integer [n]. *)
Definition int_eq (n : Z) (v : value) : bool :=
  match v with
  | VInt z => n =? z
  | VBool b => n =? (if b then 1 else 0)
  | VFloat x => float_eq_int x n
  | _ => false
  end.

(** [(a, b, c) == (x, y, z)] for a tuple of integers on the left. *)
Definition tuple_eq (t : Z * Z * Z) (u : value * value * value) : bool :=
  let '(a, b, c) := t in
  let '(x, y, z) := u in
  int_eq a x && int_eq b y && int_eq c z.

(** [format(v, ",")], the format the report line uses. *)
Definition format_comma (v : value) : result string :=
  match v with
  | VInt z => Ok (PyInt.format_comma z)
  | VBool b => Ok (if b then "1" else "0")
  | VFloat x => Ok (float_format_comma x)
  | VStr _ => Raise ValueError
  | VNone | VList _ | VDict _ => Raise TypeError
  end.

End Values.

Section Cells.
Context `{L : PyLib}.

(** The text [csv.writer] writes for a cell: a string as it is, [None] as
    the empty string, anything else through [str]. *)
Definition csv_str (v : value) : string :=
  match v with
  | VStr s => s
  | VNone => ""
  | VInt z => PyInt.str z
  | VBool b => if b then "True" else "False"
  | VFloat x => float_str x
  | VList _ | VDict _ => container_str v
  end.

End Cells.
End Py.

(** ** The world the program runs in *)

Record Date : Type := { year : nat; month : nat; day : nat }.

(** [date.isoformat()]: [YYYY-MM-DD]. *)
Definition isoformat (d : Date) : string :=
  PyInt.pad 4 (PyInt.str (Z.of_nat (year d))) ++ "-" ++
  PyInt.pad 2 (PyInt.str (Z.of_nat (month d))) ++ "-" ++
  PyInt.pad 2 (PyInt.str (Z.of_nat (day d))).

Record World : Type := {
  network : option string;   (* the body the URL answers with, if it answers *)
  data_csv : option string;  (* the text of data.csv, if the file exists *)
  clock : nat -> Date;       (* the date at the n-th reading of the clock *)
  ticks : nat;               (* readings of the clock so far *)
  stdout : list string       (* lines printed so far *)
}.

Definition set_data_csv (text : option string) (w : World) : World :=
  {| network := network w; data_csv := text; clock := clock w;
     ticks := ticks w; stdout := stdout w |}.

(** State and exceptions: a computation maps a world to a result and the
    world it leaves. *)
Definition M (A : Type) : Type := World -> result A * World.

Definition ret {A} (a : A) : M A := fun w => (Ok a, w).

Definition raise {A} (e : exn) : M A := fun w => (Raise e, w).

Definition bind {A B} (m : M A) (k : A -> M B) : M B :=
  fun w =>
    match m w with
    | (Ok a, w') => k a w'
    | (Raise e, w') => (Raise e, w')
    end.

Definition lift {A} (r : result A) : M A := fun w => (r, w).

(** [try: m except <handles>: handler] *)
Definition try_except {A} (m : M A) (handles : exn -> bool) (handler : M A)
  : M A :=
  fun w =>
    match m w with
    | (Raise e, w') => if handles e then handler w' else (Raise e, w')
    | ok => ok
    end.

Declare Scope py_scope.
Delimit Scope py_scope with py.
Notation "x <- m ;; k" := (bind m (fun x => k))
  (at level 61, m at next level, right associativity) : py_scope.
Notation "m ;; k" := (bind m (fun _ => k))
  (at level 61, right associativity) : py_scope.
Local Open Scope py_scope.

(** [open(DATA_CSV, "r", ...)], and the text of the file *)
Definition open_read : M string :=
  fun w =>
    match data_csv w with
    | Some text => (Ok text, w)
    | None => (Raise FileNotFoundError, w)
    end.

(** [open(DATA_CSV, "a", ...)]: the file exists from then on. *)
Definition open_append : M unit :=
  fun w =>
    match data_csv w with
    | Some _ => (Ok tt, w)
    | None => (Ok tt, set_data_csv (Some "") w)
    end.

(** Text written to a file opened for appending goes to its end. *)
Definition write (s : string) : M unit :=
  fun w =>
    match data_csv w with
    | Some text => (Ok tt, set_data_csv (Some (text ++ s)) w)
    | None => (Ok tt, set_data_csv (Some s) w)
    end.

(** [date.today()] *)
Definition date_today : M Date :=
  fun w =>
    (Ok (clock w (ticks w)),
     {| network := network w; data_csv := data_csv w; clock := clock w;
        ticks := S (ticks w); stdout := stdout w |}).

Definition print (line : string) : M unit :=
  fun w =>
    (Ok tt,
     {| network := network w; data_csv := data_csv w; clock := clock w;
        ticks := ticks w; stdout := (stdout w ++ [line])%list |}).

(** [urlopen(ZONE_COUNTS_URL, ...).read()] *)
Definition urlopen_read : M string :=
  fun w =>
    match network w with
    | Some body => (Ok body, w)
    | None => (Raise URLError, w)
    end.

(** ** The program *)

Inductive Decision : Type :=
| Skipped
| Appended.

Definition HEADER : list string := ["date"; "com"; "net"; "total"].

Definition NO_CHANGE : string :=
  "No change; counts match latest entry. Skipping save.".

(** [cell.lower() == "date"] *)
Definition is_date (cell : string) : bool := (Str.lower cell =? "date")%string.

(** [xs[-1]], when there is one. *)
Fixpoint last_row {A} (xs : list A) : option A :=
  match xs with
  | [] => None
  | [x] => Some x
  | _ :: rest => last_row rest
  end.

(** [int(cell)] *)
Definition to_int (cell : string) : result Z :=
  match PyInt.int cell with
  | Some z => Ok z
  | None => Raise ValueError
  end.

(** The rows after the header test of [get_latest_row]:
    [rows[1:] if len(rows) > 1 else []] when there is no row or the first
    cell of the first row is a header cell, every row otherwise. *)
Definition select_data_rows (rows : list (list string))
  : result (list (list string)) :=
  rbind (match rows with
         | [] => Ok true
         | first :: _ => rbind (index first 0) (fun c => Ok (is_date c))
         end)
        (fun skip =>
           if skip then Ok (if (1 <? List.length rows)%nat then tl rows else [])
           else Ok rows).

(** [int(last[1]), int(last[2]), int(last[3])] *)
Definition parse_last (last : list string) : result (Z * Z * Z) :=
  rbind (rbind (index last 1) to_int) (fun a =>
  rbind (rbind (index last 2) to_int) (fun b =>
  rbind (rbind (index last 3) to_int) (fun c =>
  Ok (a, b, c)))).

(** [list(csv.reader(f))] on the open file *)
Definition read_rows : M (list (list string)) :=
  text <- open_read;;
  lift (Csv.reader_list (Csv.readlines text)).

(** [next(csv.reader(f), None)] on the open file *)
Definition read_first : M (option (list string)) :=
  text <- open_read;;
  r <- lift (Csv.reader_next (Csv.readlines text));;
  ret (fst r).

Definition get_latest_row : M (option (Z * Z * Z)) :=
  found <- try_except (rows <- read_rows;; ret (Some rows))
                      is_FileNotFoundError (ret None);;
  match found with
  | None => ret None
  | Some rows =>
      data_rows <- lift (select_data_rows rows);;
      match last_row data_rows with
      | None => ret None
      | Some last =>
          if (List.length last <? 4)%nat then ret None
          else try_except (t <- lift (parse_last last);; ret (Some t))
                          is_ValueError_or_IndexError (ret None)
      end
  end.

Section Program.
Context `{L : PyLib}.

Definition fetch_zone_data : M value :=
  body <- urlopen_read;;
  match utf8_decode body with
  | None => raise UnicodeDecodeError
  | Some text =>
      match json_loads text with
      | None => raise JSONDecodeError
      | Some data => ret data
      end
  end.

(** [data[zone]["domainNameCounts"]] *)
Definition domain_name_counts (data : value) (zone : string) : result value :=
  rbind (Py.getitem data zone) (fun d => Py.getitem d "domainNameCounts").

Definition parse_counts (data : value) : result (value * value * value) :=
  rbind (domain_name_counts data "comDomainNameBase") (fun com =>
  rbind (domain_name_counts data "netDomainNameBase") (fun net =>
  rbind (Py.add com net) (fun total =>
  Ok (com, net, total)))).

(** [writer.writerow(row)] for a row of values *)
Definition writerow (row : list value) : M unit :=
  write (Csv.writerow (map Py.csv_str row)).

Definition append_to_csv (com net total : value) : M unit :=
  today <- date_today;;
  let row := [VStr (isoformat today); com; net; total] in
  has_header <-
    try_except
      (first <- read_first;;
       match first with
       | None => ret false
       | Some cells => c <- lift (index cells 0);; ret (is_date c)
       end)
      is_FileNotFoundError (ret false);;
  open_append;;
  (if negb has_header then writerow (map VStr HEADER) else ret tt);;
  writerow row.

Definition report (today : Date) (com net total : string) : string :=
  "Appended: " ++ isoformat today ++ " | .com: " ++ com ++
  " | .net: " ++ net ++ " | total: " ++ total.

(** [main] returns nothing; the model returns which of its two exits the
    run took. *)
Definition main : M Decision :=
  data <- fetch_zone_data;;
  counts <- lift (parse_counts data);;
  let '(com, net, total) := counts in
  latest <- get_latest_row;;
  if match latest with
     | Some t => Py.tuple_eq t (com, net, total)
     | None => false
     end
  then
    print "No change; counts match latest entry. Skipping save.";;
    ret Skipped
  else
    append_to_csv com net total;;
    today <- date_today;;
    c <- lift (Py.format_comma com);;
    n <- lift (Py.format_comma net);;
    t <- lift (Py.format_comma total);;
    print (report today c n t);;
    ret Appended.

End Program.

(** ** Notions the statements use *)

(** The last data row of a log text, found the way [get_latest_row] finds
    it: the rows of the text, without the header row, and the last of them
    when there is one. *)
Definition last_data_row (text : string) : result (option (list string)) :=
  rbind (Csv.reader_list (Csv.readlines text)) (fun rows =>
  rbind (select_data_rows rows) (fun data_rows =>
  Ok (last_row data_rows))).

(** The rows of a log text. *)
Definition rows_of (text : string) : result (list (list string)) :=
  Csv.reader_list (Csv.readlines text).

(** The first row of a log text, as [next(reader, None)] returns it. *)
Definition first_row_of (text : string) : result (option (list string)) :=
  rbind (Csv.reader_next (Csv.readlines text)) (fun r => Ok (fst r)).

(** A cell without delimiter, quote or line break: written as it is. *)
Definition plain (cell : string) : bool :=
  Str.forallb (fun c => negb (Csv.special c)) cell.

(** The text of the log, the empty text when there is no file. *)
Definition content (file : option string) : string :=
  match file with
  | Some text => text
  | None => ""
  end.

(** A reader between records is a fresh reader. *)
Definition fresh_between (r : Csv.Reader) : Prop :=
  Csv.state r = Csv.START_RECORD -> r = Csv.parse_reset.

(** The reader after the characters of a plain cell, at the start of a
    field. *)
Definition after_cell (fs : list string) (cell : string) : Csv.Reader :=
  match cell with
  | EmptyString =>
      {| Csv.state := Csv.START_FIELD; Csv.fields := fs; Csv.field := "" |}
  | _ => {| Csv.state := Csv.IN_FIELD; Csv.fields := fs; Csv.field := cell |}
  end.

(** A line as [readlines] makes them: no line break before its end, and
    at its end nothing, LF, CR or CR LF. *)
Fixpoint line_ok (l : string) : bool :=
  match l with
  | EmptyString => true
  | String c r =>
      if (c =? Csv.LF)%char then (r =? "")%string
      else if (c =? Csv.CR)%char
           then (r =? "")%string || (r =? String Csv.LF "")%string
      else line_ok r
  end.

(** What [get_latest_row] returns, as a function of the file. *)
Definition latest_in (file : option string) : result (option (Z * Z * Z)) :=
  match file with
  | None => Ok None
  | Some text =>
      rbind (last_data_row text) (fun l =>
        match l with
        | None => Ok None
        | Some last =>
            if (List.length last <? 4)%nat then Ok None
            else match parse_last last with
                 | Ok t => Ok (Some t)
                 | Raise e =>
                     if is_ValueError_or_IndexError e then Ok None else Raise e
                 end
        end)
  end.

(** The header test of [append_to_csv], as a function of the file. *)
Definition header_in (file : option string) : result bool :=
  match file with
  | None => Ok false
  | Some text =>
      rbind (first_row_of text) (fun first =>
        match first with
        | None => Ok false
        | Some cells => rbind (index cells 0) (fun c => Ok (is_date c))
        end)
  end.

(** The world after one reading of the clock. *)
Definition tick (w : World) : World :=
  {| network := network w; data_csv := data_csv w; clock := clock w;
     ticks := S (ticks w); stdout := stdout w |}.

(** The text [append_to_csv] adds to the log. *)
Definition appended `{L : PyLib} (has_header : bool) (today : Date)
    (com net total : value) : string :=
  (if has_header then "" else Csv.writerow HEADER) ++
  Csv.writerow (map Py.csv_str [VStr (isoformat today); com; net; total]).

(** What [fetch_zone_data] returns, as a function of the network. *)
Definition fetch_in `{L : PyLib} (net : option string) : result value :=
  match net with
  | None => Raise URLError
  | Some body =>
      match utf8_decode body with
      | None => Raise UnicodeDecodeError
      | Some text =>
          match json_loads text with
          | None => Raise JSONDecodeError
          | Some data => Ok data
          end
      end
  end.

(** The test of [main]: [latest is not None and latest == counts]. *)
Definition same_counts `{F : PyFloat} (latest : option (Z * Z * Z))
    (counts : value * value * value) : bool :=
  match latest with
  | Some t => Py.tuple_eq t counts
  | None => false
  end.

(** The three counts of the report line. *)
Definition format3 `{F : PyFloat} (com net total : value)
  : result (string * string * string) :=
  rbind (Py.format_comma com) (fun c =>
  rbind (Py.format_comma net) (fun n =>
  rbind (Py.format_comma total) (fun t =>
  Ok (c, n, t)))).


(** A row that the header test takes for the header row. *)
Definition is_header_row (row : list string) : bool :=
  match row with
  | c :: _ => is_date c
  | [] => false
  end.

(** The header row, if present, is the first row: no row after the first
    is a header row. *)
Definition header_only_first (rows : list (list string)) : bool :=
  forallb (fun row => negb (is_header_row row)) (tl rows).

(** The file exists and its first row is the empty row: the text starts
    with an empty line. *)
Definition empty_first_row (file : option string) : bool :=
  match file with
  | Some text =>
      match rows_of text with
      | Ok ([] :: _) => true
      | _ => false
      end
  | None => false
  end.

(** The file exists and its first row starts with a header cell. *)
Definition starts_with_header (file : option string) : bool :=
  match file with
  | Some text =>
      match rows_of text with
      | Ok ((c :: _) :: _) => is_date c
      | _ => false
      end
  | None => false
  end.

(** A world with nothing but a log file, to run the file functions in. *)
Definition file_world (file : option string) : World :=
  {| network := None; data_csv := file;
     clock := fun _ => {| year := 1; month := 1; day := 1 |};
     ticks := 0; stdout := [] |}.

(** The cells of a row of integer counts. *)
Definition int_row (today : Date) (a b t : Z) : list string :=
  [isoformat today; PyInt.str a; PyInt.str b; PyInt.str t].



(** The JSON document the endpoint publishes, for two count values. *)
Definition zone_counts `{PyFloat} (com net : value) : value :=
  VDict [("comDomainNameBase", VDict [("domainNameCounts", com)]);
         ("netDomainNameBase", VDict [("domainNameCounts", net)])].

(** ** An interpreter for the examples

    No floating point numbers, and a JSON decoder that knows three
    documents by name. *)
Module Demo.

Definition no_float : PyFloat :=
  {| pyfloat := Empty_set;
     float_add := fun x _ => x;
     float_of_int := fun _ => None;
     float_eq_int := fun _ _ => false;
     float_str := fun _ => "";
     float_format_comma := fun _ => "" |}.

Definition loads (text : string) : option (@value no_float) :=
  if (text =? "100 200")%string
  then Some (zone_counts (VInt 100) (VInt 200))
  else if (text =? "160000000 13000000")%string
  then Some (zone_counts (VInt 160000000) (VInt 13000000))
  else if (text =? "'1' '2'")%string
  then Some (zone_counts (VStr "1") (VStr "2"))
  else None.

Definition lib : @PyLib no_float :=
  {| container_str := fun _ => "[]";
     utf8_decode := fun body => Some body;
     json_loads := loads |}.

Definition today : Date := {| year := 2026; month := 11; day := 4 |}.

(** A world whose endpoint answers [body] and whose log is [file]. *)
Definition world (body : string) (file : option string) : World :=
  {| network := Some body; data_csv := file; clock := fun _ => today;
     ticks := 0; stdout := [] |}.

(** A log text from its lines, each ended by CR LF. *)
Fixpoint log (lines : list string) : string :=
  match lines with
  | [] => ""
  | l :: ls => l ++ Csv.CRLF ++ log ls
  end.

Definition main := @main no_float lib.
Definition append_to_csv := @append_to_csv no_float lib.
Definition parse_counts := @parse_counts no_float.

End Demo.

(** * Properties *)

(** Case analysis on every test of a conditional in the goal. *)
Ltac case_ifs :=
  repeat match goal with
         | |- context [if ?b then _ else _] => destruct b
         end.

(** ** Text *)

Lemma append_nil_r (s : string) : s ++ "" = s.
Proof. induction s as [|c s IH]; simpl; [reflexivity | now rewrite IH]. Qed.

Lemma append_assoc (s t u : string) : (s ++ t) ++ u = s ++ t ++ u.
Proof. induction s as [|c s IH]; simpl; [reflexivity | now rewrite IH]. Qed.

Lemma forallb_append (p : ascii -> bool) (s t : string) :
  Str.forallb p (s ++ t) = Str.forallb p s && Str.forallb p t.
Proof.
  induction s as [|c s IH]; simpl; [reflexivity|].
  now rewrite IH, andb_assoc.
Qed.

(** ** The reader raises nothing but its own error *)

Lemma parse_process_char_raises (r : Csv.Reader) (c : Csv.input) (e : exn) :
  Csv.parse_process_char r c = Raise e -> e = CsvError.
Proof.
  unfold Csv.parse_process_char.
  destruct (Csv.state r), c as [ch|]; case_ifs; congruence.
Qed.

Lemma feed_line_raises (line : string) (r : Csv.Reader) (e : exn) :
  Csv.feed_line r line = Raise e -> e = CsvError.
Proof.
  revert r; induction line as [|c line IH]; intros r; simpl.
  - apply parse_process_char_raises.
  - destruct (Csv.parse_process_char r (Csv.Char c)) as [r'|e'] eqn:E; simpl.
    + apply IH.
    + intros [= <-]. eapply parse_process_char_raises; eassumption.
Qed.

Lemma reader_list_raises (lines : list string) (r : Csv.Reader) (e : exn) :
  Csv.reader_list_from r lines = Raise e -> e = CsvError.
Proof.
  revert r; induction lines as [|l ls IH]; intros r; simpl.
  - destruct (Csv.pending r); discriminate.
  - destruct (Csv.feed_line r l) as [r'|e'] eqn:E; simpl.
    + destruct (Csv.state_eqb (Csv.state r') Csv.START_RECORD).
      * destruct (Csv.reader_list_from Csv.parse_reset ls) eqn:E';
          simpl; [discriminate|].
        intros [= <-]. eapply IH; eassumption.
      * apply IH.
    + intros [= <-]. eapply feed_line_raises; eassumption.
Qed.

Lemma reader_next_raises (lines : list string) (r : Csv.Reader) (e : exn) :
  Csv.reader_next_from r lines = Raise e -> e = CsvError.
Proof.
  revert r; induction lines as [|l ls IH]; intros r; simpl.
  - destruct (Csv.pending r); discriminate.
  - destruct (Csv.feed_line r l) as [r'|e'] eqn:E; simpl.
    + destruct (Csv.state_eqb (Csv.state r') Csv.START_RECORD);
        [discriminate | apply IH].
    + intros [= <-]. eapply feed_line_raises; eassumption.
Qed.

Lemma index_raises {A} (xs : list A) (i : nat) (e : exn) :
  index xs i = Raise e -> e = IndexError.
Proof. unfold index; destruct (nth_error xs i); congruence. Qed.

(** ** What the functions do to the world *)

Section Runs.
Context `{L : PyLib}.

Lemma fetch_zone_data_frame (w : World) : snd (fetch_zone_data w) = w.
Proof.
  unfold fetch_zone_data, bind, urlopen_read.
  destruct (network w) as [body|]; [|reflexivity].
  destruct (utf8_decode body) as [text|]; [|reflexivity].
  destruct (json_loads text); reflexivity.
Qed.

Lemma get_latest_row_run (w : World) :
  get_latest_row w = (latest_in (data_csv w), w).
Proof.
  unfold get_latest_row, latest_in, last_data_row, read_rows, try_except,
    bind, open_read, lift, ret.
  destruct (data_csv w) as [text|]; simpl; [|reflexivity].
  destruct (Csv.reader_list (Csv.readlines text)) as [rows|e] eqn:E; simpl.
  2:{ apply reader_list_raises in E; subst e; reflexivity. }
  destruct (select_data_rows rows) as [data_rows|e]; simpl; [|reflexivity].
  destruct (last_row data_rows) as [last|]; [|reflexivity].
  destruct (List.length last <? 4)%nat; [reflexivity|].
  destruct (parse_last last) as [t|e]; simpl; [reflexivity|].
  destruct (is_ValueError_or_IndexError e); reflexivity.
Qed.

Lemma csv_str_header : map Py.csv_str (map VStr HEADER) = HEADER.
Proof. reflexivity. Qed.

Lemma append_to_csv_run (com net total : value) (w : World) :
  append_to_csv com net total w =
  match header_in (data_csv w) with
  | Raise e => (Raise e, tick w)
  | Ok h =>
      (Ok tt,
       set_data_csv
         (Some (content (data_csv w) ++
                appended h (clock w (ticks w)) com net total))
         (tick w))
  end.
Proof.
  unfold append_to_csv, header_in, first_row_of, read_first, try_except, bind,
    date_today, open_read, open_append, writerow, write, lift, ret, appended,
    tick, set_data_csv.
  cbn [data_csv network clock ticks stdout].
  destruct (data_csv w) as [text|]; cbn [content data_csv].
  - destruct (Csv.reader_next (Csv.readlines text)) as [[first rest]|e] eqn:E;
      cbn [rbind fst].
    2:{ apply reader_next_raises in E; subst e; reflexivity. }
    destruct first as [cells|]; cbn [rbind].
    + destruct (index cells 0) as [c|e] eqn:Ei; cbn [rbind].
      * destruct (is_date c); cbn [negb data_csv];
          now rewrite ?csv_str_header, ?append_assoc.
      * apply index_raises in Ei; subst e; reflexivity.
    + cbn [negb data_csv]. now rewrite csv_str_header, append_assoc.
  - cbn [is_FileNotFoundError negb data_csv].
    now rewrite csv_str_header.
Qed.

Lemma fetch_zone_data_run (w : World) :
  fetch_zone_data w = (fetch_in (network w), w).
Proof.
  unfold fetch_zone_data, fetch_in, bind, urlopen_read, raise, ret.
  destruct (network w) as [body|]; [|reflexivity].
  destruct (utf8_decode body) as [text|]; [|reflexivity].
  destruct (json_loads text); reflexivity.
Qed.

(** The whole run, exit by exit. *)
Lemma main_run (w : World) :
  main w =
  match fetch_in (network w) with
  | Raise e => (Raise e, w)
  | Ok data =>
  match parse_counts data with
  | Raise e => (Raise e, w)
  | Ok (com, net, total) =>
  match latest_in (data_csv w) with
  | Raise e => (Raise e, w)
  | Ok latest =>
      if same_counts latest (com, net, total)
      then (Ok Skipped, snd (print NO_CHANGE w))
      else
        match header_in (data_csv w) with
        | Raise e => (Raise e, tick w)
        | Ok h =>
            let w1 :=
              tick (set_data_csv
                      (Some (content (data_csv w) ++
                             appended h (clock w (ticks w)) com net total))
                      (tick w)) in
            match format3 com net total with
            | Raise e => (Raise e, w1)
            | Ok (c, n, t) =>
                (Ok Appended,
                 snd (print (report (clock w (S (ticks w))) c n t) w1))
            end
        end
  end end end.
Proof.
  unfold main. unfold bind at 1. rewrite fetch_zone_data_run.
  destruct (fetch_in (network w)) as [data|e]; [|reflexivity].
  unfold bind at 1, lift.
  destruct (parse_counts data) as [[[com net] total]|e]; [|reflexivity].
  unfold bind at 1. rewrite get_latest_row_run.
  destruct (latest_in (data_csv w)) as [latest|e]; [|reflexivity].
  fold (same_counts latest (com, net, total)).
  destruct (same_counts latest (com, net, total)); [reflexivity|].
  unfold bind at 1. rewrite append_to_csv_run.
  destruct (header_in (data_csv w)) as [h|e]; [|reflexivity].
  unfold bind, date_today, format3, lift, ret, print, tick, set_data_csv.
  cbn [network data_csv clock ticks stdout].
  destruct (Py.format_comma com) as [c|e]; cbn [rbind]; [|reflexivity].
  destruct (Py.format_comma net) as [n|e]; cbn [rbind]; [|reflexivity].
  destruct (Py.format_comma total) as [t|e]; cbn [rbind]; reflexivity.
Qed.

End Runs.

(** ** The skip decision *)

Section Decision.
Context `{L : PyLib}.





(** C9.  Appending only extends the log: whatever the values, and whether
    the append goes through or raises, the text before is a prefix of the
    text after, and a log that exists still exists; the same holds of a
    whole run. *)
Theorem append_extends_log (com net total : value) (w : World) :
  (exists suffix : string,
      content (data_csv (snd (append_to_csv com net total w))) =
      content (data_csv w) ++ suffix) /\
  (exists suffix : string,
      content (data_csv (snd (main w))) = content (data_csv w) ++ suffix) /\
  (data_csv w <> None ->
   data_csv (snd (append_to_csv com net total w)) <> None /\
   data_csv (snd (main w)) <> None).
Proof.
  assert (Hsame : exists suffix : string,
             content (data_csv w) = content (data_csv w) ++ suffix)
    by (exists ""; now rewrite append_nil_r).
  split; [|split].
  - rewrite append_to_csv_run.
    destruct (header_in (data_csv w)) as [h|e]; [|exact Hsame].
    eexists; cbn [snd set_data_csv data_csv content]; reflexivity.
  - rewrite main_run.
    destruct (fetch_in (network w)) as [data|e]; [|exact Hsame].
    destruct (parse_counts data) as [[[c n] t]|e]; [|exact Hsame].
    destruct (latest_in (data_csv w)) as [latest|e]; [|exact Hsame].
    destruct (same_counts latest (c, n, t)); [exact Hsame|].
    destruct (header_in (data_csv w)) as [h|e]; [|exact Hsame].
    cbv zeta.
    destruct (format3 c n t) as [[[c' n'] t']|e];
      eexists; cbn [snd print tick set_data_csv data_csv content];
      reflexivity.
  - intros Hfile. split.
    + rewrite append_to_csv_run.
      destruct (header_in (data_csv w)) as [h|e];
        [discriminate | exact Hfile].
    + rewrite main_run.
      destruct (fetch_in (network w)) as [data|e]; [|exact Hfile].
      destruct (parse_counts data) as [[[c n] t]|e]; [|exact Hfile].
      destruct (latest_in (data_csv w)) as [latest|e]; [|exact Hfile].
      destruct (same_counts latest (c, n, t)); [exact Hfile|].
      destruct (header_in (data_csv w)) as [h|e]; [|exact Hfile].
      cbv zeta.
      destruct (format3 c n t) as [[[c' n'] t']|e]; discriminate.
Qed.

End Decision.

(** ** The reader: first row, appended text, rows of plain cells *)

Section ReaderFacts.
Import Csv.

(** [next(reader)] returns the first of the rows [list(reader)] returns. *)
Lemma reader_next_first (lines : list string) :
  forall (r : Reader) (rows : list (list string)),
    reader_list_from r lines = Ok rows ->
    exists rest, reader_next_from r lines = Ok (hd_error rows, rest).
Proof.
  induction lines as [|l ls IH]; intros r rows; simpl.
  - destruct (pending r); intros [= <-]; eexists; reflexivity.
  - destruct (feed_line r l) as [r'|e]; simpl; [|discriminate].
    destruct (state_eqb (state r') START_RECORD).
    + destruct (reader_list_from parse_reset ls) as [rows'|e]; simpl;
        [|discriminate].
      intros [= <-]. eexists; reflexivity.
    + apply IH.
Qed.

Lemma first_row_of_rows (text : string) (rows : list (list string)) :
  rows_of text = Ok rows -> first_row_of text = Ok (hd_error rows).
Proof.
  unfold rows_of, first_row_of, reader_list, reader_next. intros H.
  destruct (reader_next_first _ _ H) as [rest ->]. reflexivity.
Qed.

(** *** Lines of a text that grows at its end *)

Lemma readlines_cons (c : ascii) (s : string) : readlines (String c s) <> [].
Proof.
  simpl. destruct (c =? LF)%char; [discriminate|].
  destruct (c =? CR)%char.
  - destruct s as [|c' s']; [discriminate|].
    destruct (c' =? LF)%char; discriminate.
  - destruct (readlines s); discriminate.
Qed.

Lemma ends_lf_cons (c : ascii) (s : string) :
  s <> "" -> Str.ends_lf (String c s) = Str.ends_lf s.
Proof. destruct s; [congruence | reflexivity]. Qed.

Lemma ends_lf_append (s t : string) :
  t <> "" -> Str.ends_lf (s ++ t) = Str.ends_lf t.
Proof.
  intros Ht. induction s as [|c s IH]; [reflexivity|].
  change (String c s ++ t) with (String c (s ++ t)).
  rewrite ends_lf_cons; [exact IH|].
  destruct s; simpl; [exact Ht | discriminate].
Qed.

Lemma readlines_LF (r : string) :
  readlines (String LF r) = String LF "" :: readlines r.
Proof. reflexivity. Qed.

Lemma readlines_CRLF (r : string) :
  readlines (String CR (String LF r)) = CRLF :: readlines r.
Proof. reflexivity. Qed.

Lemma readlines_CR (c : ascii) (r : string) :
  c <> LF -> readlines (String CR (String c r))
             = String CR "" :: readlines (String c r).
Proof.
  intros Hc. cbn [readlines]. change (CR =? LF)%char with false.
  change (CR =? CR)%char with true. cbv iota.
  destruct (Ascii.eqb_spec c LF); [contradiction | reflexivity].
Qed.

Lemma readlines_char (c : ascii) (r : string) :
  c <> LF -> c <> CR ->
  readlines (String c r)
  = match readlines r with
    | [] => [String c ""]
    | l :: ls => String c l :: ls
    end.
Proof.
  intros H1 H2. cbn [readlines].
  destruct (Ascii.eqb_spec c LF); [contradiction|].
  destruct (Ascii.eqb_spec c CR); [contradiction | reflexivity].
Qed.

Lemma readlines_append_aux (n : nat) :
  forall text s : string,
    (String.length text <= n)%nat -> Str.ends_lf text = true ->
    readlines (text ++ s) = (readlines text ++ readlines s)%list.
Proof.
  induction n as [|n IH]; intros text s Hlen Hlf.
  - destruct text; [reflexivity | simpl in Hlen; lia].
  - destruct text as [|c r]; [reflexivity|].
    simpl in Hlen.
    assert (Hr : r <> "" -> Str.ends_lf r = true)
      by (intros Hne; now rewrite <- (ends_lf_cons c Hne)).
    change (String c r ++ s) with (String c (r ++ s)).
    destruct (Ascii.eqb_spec c LF) as [->|Hc1].
    + rewrite !readlines_LF.
      destruct r as [|c' r']; [reflexivity|].
      rewrite IH; [reflexivity | lia | apply Hr; discriminate].
    + destruct r as [|c' r'];
        [simpl in Hlf; apply Ascii.eqb_eq in Hlf; contradiction|].
      specialize (Hr ltac:(discriminate)).
      change (String c' r' ++ s) with (String c' (r' ++ s)).
      destruct (Ascii.eqb_spec c CR) as [->|Hc2].
      * destruct (Ascii.eqb_spec c' LF) as [->|Hc3].
        -- rewrite !readlines_CRLF.
           destruct r' as [|c'' r'']; [reflexivity|].
           rewrite IH; [reflexivity | simpl in *; lia |].
           now rewrite <- (ends_lf_cons LF) by discriminate.
        -- rewrite !(readlines_CR (c:=c')) by exact Hc3.
           change (String c' (r' ++ s)) with (String c' r' ++ s).
           rewrite IH; [reflexivity | lia | exact Hr].
      * rewrite !(readlines_char (c:=c)) by assumption.
        change (String c' (r' ++ s)) with (String c' r' ++ s).
        rewrite IH; [| lia | exact Hr].
        destruct (readlines (String c' r')) as [|l ls] eqn:El;
          [now apply readlines_cons in El | reflexivity].
Qed.

Lemma readlines_append (text s : string) :
  Str.ends_lf text = true ->
  readlines (text ++ s) = (readlines text ++ readlines s)%list.
Proof. apply (readlines_append_aux (n := String.length text)); lia. Qed.

(** *** Rows of a text that grows where a record ends *)

Lemma state_eqb_eq (a b : ParserState) : state_eqb a b = true <-> a = b.
Proof. destruct a, b; simpl; split; congruence. Qed.

Lemma fresh_between_other (r : Reader) :
  state_eqb (state r) START_RECORD = false -> fresh_between r.
Proof.
  intros H E. rewrite E in H. discriminate.
Qed.

Lemma reader_list_append (l1 l2 : list string) :
  forall r : Reader,
    fresh_between r -> closed_from r l1 = true ->
    reader_list_from r (l1 ++ l2) =
    rbind (reader_list_from r l1) (fun rows1 =>
    rbind (reader_list_from parse_reset l2) (fun rows2 =>
    Ok (rows1 ++ rows2)%list)).
Proof.
  induction l1 as [|l ls IH]; intros r Hr Hc; simpl in *.
  - apply state_eqb_eq in Hc. rewrite (Hr Hc). cbn.
    destruct (reader_list_from parse_reset l2); reflexivity.
  - destruct (feed_line r l) as [r'|e]; [|discriminate]. cbn [rbind].
    destruct (state_eqb (state r') START_RECORD) eqn:Es.
    + rewrite IH; [|congruence|exact Hc].
      destruct (reader_list_from parse_reset ls) as [rows1|e]; cbn [rbind];
        [|reflexivity].
      destruct (reader_list_from parse_reset l2); reflexivity.
    + apply IH; [now apply fresh_between_other | exact Hc].
Qed.

Lemma closed_from_append (l1 l2 : list string) :
  forall r : Reader,
    fresh_between r -> closed_from r l1 = true ->
    closed_from r (l1 ++ l2) = closed_from parse_reset l2.
Proof.
  induction l1 as [|l ls IH]; intros r Hr Hc; simpl in *.
  - apply state_eqb_eq in Hc. now rewrite (Hr Hc).
  - destruct (feed_line r l) as [r'|e]; [|discriminate].
    destruct (state_eqb (state r') START_RECORD) eqn:Es.
    + apply IH; [congruence | exact Hc].
    + apply IH; [now apply fresh_between_other | exact Hc].
Qed.

(** The rows of a well-terminated text followed by more text are the rows
    of the one followed by the rows of the other. *)
Lemma rows_of_append (text more : string) :
  well_terminated text = true ->
  rows_of (text ++ more) =
  rbind (rows_of text) (fun rows1 =>
  rbind (rows_of more) (fun rows2 => Ok (rows1 ++ rows2)%list)).
Proof.
  unfold well_terminated, rows_of, reader_list.
  intros [Hlf Hc]%andb_prop.
  rewrite readlines_append by exact Hlf.
  apply reader_list_append; [congruence | exact Hc].
Qed.

Lemma well_terminated_append (text more : string) :
  well_terminated text = true -> well_terminated more = true ->
  well_terminated (text ++ more) = true.
Proof.
  unfold well_terminated.
  intros [Hlf Hc]%andb_prop [Hlf' Hc']%andb_prop.
  rewrite readlines_append by exact Hlf.
  rewrite closed_from_append by (congruence || exact Hc).
  rewrite Hc', andb_true_r.
  destruct more as [|c more]; [now rewrite append_nil_r|].
  now rewrite ends_lf_append by discriminate.
Qed.

End ReaderFacts.

(** ** The reader never raises on the lines of a file *)

Section ReaderTotal.
Import Csv.

Lemma line_ok_cons (c : ascii) (l : string) :
  c <> LF -> c <> CR -> line_ok (String c l) = line_ok l.
Proof.
  intros H1 H2. cbn [line_ok].
  destruct (Ascii.eqb_spec c LF); [contradiction|].
  destruct (Ascii.eqb_spec c CR); [contradiction | reflexivity].
Qed.

Lemma readlines_ok_aux (n : nat) :
  forall s : string,
    (String.length s <= n)%nat ->
    Forall (fun l => line_ok l = true) (readlines s).
Proof.
  induction n as [|n IH]; intros s Hlen.
  - destruct s; [constructor | simpl in Hlen; lia].
  - destruct s as [|c r]; [constructor|]. simpl in Hlen.
    destruct (Ascii.eqb_spec c LF) as [->|Hc1].
    + rewrite readlines_LF. constructor; [reflexivity | apply IH; lia].
    + destruct (Ascii.eqb_spec c CR) as [->|Hc2].
      * destruct r as [|c' r']; [repeat constructor|].
        destruct (Ascii.eqb_spec c' LF) as [->|Hc3].
        -- rewrite readlines_CRLF.
           constructor; [reflexivity | apply IH; simpl in Hlen; lia].
        -- rewrite (readlines_CR (c:=c')) by exact Hc3.
           constructor; [reflexivity | apply IH; lia].
      * rewrite (readlines_char (c:=c)) by assumption.
        specialize (IH r ltac:(lia)).
        destruct (readlines r) as [|l ls];
          [repeat constructor; now rewrite line_ok_cons|].
        inversion IH as [|? ? Hl Hls]; subst.
        constructor; [now rewrite line_ok_cons | exact Hls].
Qed.

Lemma readlines_ok (s : string) :
  Forall (fun l => line_ok l = true) (readlines s).
Proof. apply (readlines_ok_aux (n := String.length s)); lia. Qed.

(** The end of a line is accepted in every state, and ends a record or
    leaves a quoted field open. *)
Lemma parse_EOL (r : Reader) :
  exists r' : Reader,
    parse_process_char r EOL = Ok r' /\
    (state r' = START_RECORD \/ state r' = IN_QUOTED_FIELD).
Proof.
  unfold parse_process_char.
  destruct (state r) eqn:E; eexists; (split; [reflexivity|]);
    cbn [state set_state parse_save_field]; auto.
Qed.

(** A character is accepted in every state but the one after a line
    break, which only a line break leads to. *)
Lemma parse_char (r : Reader) (c : ascii) :
  state r <> EAT_CRNL ->
  exists r' : Reader,
    parse_process_char r (Char c) = Ok r' /\
    (is_newline c = false -> state r' <> EAT_CRNL).
Proof.
  intros Hs. unfold parse_process_char, start_field.
  destruct (state r) eqn:E; try congruence;
    destruct (is_newline c) eqn:En; case_ifs;
    eexists; (split; [reflexivity|]);
    cbn [state set_state parse_save_field parse_add_char]; congruence.
Qed.

(** After a line break, a line break and the end of the line are accepted. *)
Lemma parse_after_newline (r : Reader) (c : ascii) :
  is_newline c = true ->
  exists r' : Reader, parse_process_char r (Char c) = Ok r'.
Proof.
  intros Hn. unfold parse_process_char, start_field.
  destruct (state r); rewrite ?Hn; case_ifs; eexists; reflexivity.
Qed.

Lemma feed_line_total (l : string) :
  forall r : Reader,
    line_ok l = true -> state r <> EAT_CRNL ->
    exists r' : Reader,
      feed_line r l = Ok r' /\
      (state r' = START_RECORD \/ state r' = IN_QUOTED_FIELD).
Proof.
  induction l as [|c l IH]; intros r Hok Hs.
  - apply parse_EOL.
  - cbn [feed_line line_ok] in *.
    destruct (Ascii.eqb_spec c LF) as [->|Hc1].
    + apply String.eqb_eq in Hok as ->.
      destruct (parse_after_newline r LF eq_refl) as [r1 ->].
      cbn [rbind feed_line]. apply parse_EOL.
    + destruct (Ascii.eqb_spec c CR) as [->|Hc2].
      * destruct (parse_after_newline r CR eq_refl) as [r1 ->].
        cbn [rbind].
        apply orb_prop in Hok as [Hok|Hok]; apply String.eqb_eq in Hok as ->.
        -- apply parse_EOL.
        -- cbn [feed_line].
           destruct (parse_after_newline r1 LF eq_refl) as [r2 ->].
           cbn [rbind]. apply parse_EOL.
      * destruct (parse_char r c Hs) as (r1 & -> & Hr1). cbn [rbind].
        apply IH; [exact Hok|]. apply Hr1.
        unfold is_newline.
        destruct (Ascii.eqb_spec c LF), (Ascii.eqb_spec c CR);
          congruence || reflexivity.
Qed.

Lemma reader_list_total (lines : list string) :
  forall r : Reader,
    Forall (fun l => line_ok l = true) lines -> state r <> EAT_CRNL ->
    exists rows : list (list string), reader_list_from r lines = Ok rows.
Proof.
  induction lines as [|l ls IH]; intros r Hok Hs; cbn [reader_list_from].
  - destruct (pending r); eexists; reflexivity.
  - inversion Hok as [|? ? Hl Hls]; subst.
    destruct (feed_line_total l r Hl Hs) as (r' & -> & Hr'). cbn [rbind].
    destruct (state_eqb (state r') START_RECORD).
    + destruct (IH parse_reset Hls ltac:(discriminate)) as [rows ->].
      eexists; reflexivity.
    + apply IH; [exact Hls|]. destruct Hr' as [-> | ->]; discriminate.
Qed.

(** Every text has rows. *)
Lemma rows_of_total (text : string) :
  exists rows : list (list string), rows_of text = Ok rows.
Proof.
  apply reader_list_total; [apply readlines_ok | discriminate].
Qed.

(** [get_latest_row] raises in one case only: [IndexError], on a log whose
    first row is the empty row. *)
Lemma get_latest_row_raises (w : World) (e : exn) :
  fst (get_latest_row w) = Raise e ->
  e = IndexError /\
  exists (text : string) (rows : list (list string)),
    data_csv w = Some text /\ rows_of text = Ok ([] :: rows).
Proof.
  rewrite get_latest_row_run. cbn [fst]. unfold latest_in, last_data_row.
  destruct (data_csv w) as [text|]; [|discriminate].
  fold (rows_of text). destruct (rows_of_total text) as [rows Hrows].
  rewrite Hrows. cbn [rbind]. unfold select_data_rows.
  destruct rows as [|[|c first] rows]; cbn [rbind index nth_error].
  - discriminate.
  - intros [= <-]. split; [reflexivity|]. now exists text, rows.
  - assert (Hsel : exists data_rows,
               (if is_date c
                then Ok (if (1 <? List.length ((c :: first) :: rows))%nat
                         then tl ((c :: first) :: rows) else [])
                else Ok ((c :: first) :: rows)) = Ok data_rows)
      by (destruct (is_date c); eexists; reflexivity).
    destruct Hsel as [data_rows ->].
    cbn [rbind]. destruct (last_row data_rows) as [last|]; [|discriminate].
    destruct (List.length last <? 4)%nat; [discriminate|].
    unfold parse_last, to_int, index.
    destruct last as [|c0 [|c1 [|c2 [|c3 rest]]]]; cbn [nth_error rbind];
      try discriminate;
      repeat match goal with
             | |- context [PyInt.int ?c] => destruct (PyInt.int c); cbn [rbind]
             end; discriminate.
Qed.

End ReaderTotal.

(** ** Rows of plain cells are read back as they were written *)

Section PlainRows.
Import Csv.

Lemma plain_char (c : ascii) :
  negb (special c) = true ->
  (c =? DELIMITER)%char = false /\ (c =? QUOTE)%char = false /\
  is_newline c = false.
Proof.
  unfold special. rewrite negb_true_iff, !orb_false_iff. tauto.
Qed.

Lemma plain_cons (c : ascii) (s : string) :
  plain (String c s) = true -> negb (special c) = true /\ plain s = true.
Proof. unfold plain; simpl. apply andb_prop. Qed.

Lemma join_append_plain (cell : string) :
  plain cell = true -> join_append cell = cell.
Proof. unfold plain, join_append. now intros ->. Qed.

Lemma map_join_append_plain (cells : list string) :
  forallb plain cells = true -> map join_append cells = cells.
Proof.
  induction cells as [|c cells IH]; simpl; [reflexivity|].
  intros [Hc Hcs]%andb_prop. now rewrite join_append_plain, IH.
Qed.

(** Inside an unquoted field, plain characters are added to the field. *)
Lemma feed_line_in_field (s : string) :
  forall (fs : list string) (f t : string),
    plain s = true ->
    feed_line {| state := IN_FIELD; fields := fs; field := f |} (s ++ t)
    = feed_line {| state := IN_FIELD; fields := fs; field := f ++ s |} t.
Proof.
  induction s as [|c s IH]; intros fs f t Hs.
  - now rewrite append_nil_r.
  - apply plain_cons in Hs as [Hc Hs].
    apply plain_char in Hc as (Hd & Hq & Hn).
    change (String c s ++ t) with (String c (s ++ t)).
    cbn [feed_line]. unfold parse_process_char. cbn [state].
    rewrite Hn, Hd. cbn [rbind]. unfold parse_add_char. cbn [state fields field].
    rewrite IH by exact Hs.
    now rewrite append_assoc.
Qed.

Lemma feed_line_cell (s t : string) (fs : list string) :
  plain s = true ->
  feed_line {| state := START_FIELD; fields := fs; field := "" |} (s ++ t)
  = feed_line (after_cell fs s) t.
Proof.
  destruct s as [|c s]; intros Hs; [reflexivity|].
  apply plain_cons in Hs as [Hc Hs].
  apply plain_char in Hc as (Hd & Hq & Hn).
  change (String c s ++ t) with (String c (s ++ t)).
  cbn [feed_line]. unfold parse_process_char, start_field. cbn [state].
  rewrite Hn, Hd, Hq. cbn [rbind].
  unfold set_state, parse_add_char. cbn [state fields field].
  now rewrite feed_line_in_field.
Qed.

Lemma after_cell_delimiter (fs : list string) (cell : string) :
  parse_process_char (after_cell fs cell) (Char DELIMITER)
  = Ok {| state := START_FIELD; fields := (fs ++ [cell])%list; field := "" |}.
Proof. destruct cell; reflexivity. Qed.

Lemma after_cell_CR (fs : list string) (cell : string) :
  parse_process_char (after_cell fs cell) (Char CR)
  = Ok {| state := EAT_CRNL; fields := (fs ++ [cell])%list; field := "" |}.
Proof. destruct cell; reflexivity. Qed.

Lemma feed_line_cells (cells : list string) :
  forall fs : list string,
    cells <> [] -> forallb plain cells = true ->
    feed_line {| state := START_FIELD; fields := fs; field := "" |}
              (Str.join (String DELIMITER "") cells ++ CRLF)
    = Ok {| state := START_RECORD; fields := (fs ++ cells)%list; field := "" |}.
Proof.
  induction cells as [|c rest IH]; intros fs Hne Hp; [congruence|].
  cbn [forallb] in Hp. apply andb_prop in Hp as [Hc Hrest].
  destruct rest as [|c2 rest].
  - cbn [Str.join]. rewrite feed_line_cell by exact Hc.
    unfold CRLF. cbn [feed_line]. rewrite after_cell_CR. reflexivity.
  - change (Str.join (String DELIMITER "") (c :: c2 :: rest))
      with (c ++ String DELIMITER "" ++
            Str.join (String DELIMITER "") (c2 :: rest)).
    rewrite !append_assoc. rewrite feed_line_cell by exact Hc.
    change (String DELIMITER "" ++ ?x) with (String DELIMITER x).
    cbn [String.append feed_line]. rewrite after_cell_delimiter. cbn [rbind].
    rewrite IH by (congruence || exact Hrest).
    now rewrite <- app_assoc.
Qed.

(** A line that does not start with a line break starts a field. *)
Lemma feed_line_fresh (c : ascii) (line : string) :
  is_newline c = false ->
  feed_line parse_reset (String c line)
  = feed_line {| state := START_FIELD; fields := []; field := "" |}
              (String c line).
Proof.
  intros Hn. cbn [feed_line]. unfold parse_process_char, parse_reset.
  cbn [state]. now rewrite Hn.
Qed.

Lemma no_newline_plain (s : string) :
  plain s = true -> Str.forallb (fun c => negb (is_newline c)) s = true.
Proof.
  induction s as [|c s IH]; [reflexivity|].
  intros [Hc Hs]%plain_cons. apply plain_char in Hc as (_ & _ & Hn).
  simpl. now rewrite Hn, IH.
Qed.

Lemma no_newline_join (cells : list string) :
  forallb plain cells = true ->
  Str.forallb (fun c => negb (is_newline c))
              (Str.join (String DELIMITER "") cells) = true.
Proof.
  induction cells as [|c rest IH]; [reflexivity|].
  cbn [forallb]. intros [Hc Hrest]%andb_prop.
  destruct rest as [|c2 rest]; [now apply no_newline_plain|].
  change (Str.join (String DELIMITER "") (c :: c2 :: rest))
    with (c ++ String DELIMITER "" ++
          Str.join (String DELIMITER "") (c2 :: rest)).
  rewrite !forallb_append, (no_newline_plain _ Hc), (IH Hrest). reflexivity.
Qed.

Lemma readlines_one_line (p : string) :
  Str.forallb (fun c => negb (is_newline c)) p = true ->
  readlines (p ++ CRLF) = [p ++ CRLF].
Proof.
  induction p as [|c p IH]; [reflexivity|].
  cbn [Str.forallb]. intros [Hc Hp]%andb_prop.
  apply negb_true_iff in Hc. unfold is_newline in Hc.
  apply orb_false_iff in Hc as [H1 H2].
  change (String c p ++ CRLF) with (String c (p ++ CRLF)).
  rewrite readlines_char by (now apply Ascii.eqb_neq).
  now rewrite (IH Hp).
Qed.

(** The line of a row starts with a character that is no line break, when
    the row is more than one empty cell. *)
Lemma row_line_start (cells : list string) :
  forallb plain cells = true -> cells <> [] -> cells <> [""] ->
  exists (c : ascii) (line : string),
    Str.join (String DELIMITER "") cells ++ CRLF = String c line /\
    is_newline c = false.
Proof.
  intros Hp Hne Hne'.
  destruct cells as [|c rest]; [congruence|].
  cbn [forallb] in Hp. apply andb_prop in Hp as [Hc _].
  destruct c as [|ch c].
  - destruct rest as [|c2 rest]; [congruence|].
    eexists _, _; split; [reflexivity | reflexivity].
  - apply plain_cons in Hc as [Hch _].
    apply plain_char in Hch as (_ & _ & Hn).
    destruct rest as [|c2 rest]; eexists _, _; (split; [reflexivity | exact Hn]).
Qed.

Lemma writerow_plain (cells : list string) :
  forallb plain cells = true -> cells <> [""] ->
  writerow cells = Str.join (String DELIMITER "") cells ++ CRLF.
Proof.
  intros Hp Hne. unfold writerow. rewrite map_join_append_plain by exact Hp.
  destruct cells as [|[|] [|]]; congruence || reflexivity.
Qed.

(** A written row of plain cells is one line, read back as one row with the
    cells that were written, and ends where a record ends. *)
Lemma rows_of_writerow (cells : list string) :
  forallb plain cells = true -> cells <> [] -> cells <> [""] ->
  rows_of (writerow cells) = Ok [cells] /\
  well_terminated (writerow cells) = true.
Proof.
  intros Hp Hne Hne'.
  rewrite writerow_plain by assumption.
  unfold rows_of, well_terminated, reader_list.
  rewrite readlines_one_line by (now apply no_newline_join).
  destruct (row_line_start Hp Hne Hne') as (c & line & Eline & Hc).
  cbn [reader_list_from closed_from].
  rewrite Eline at 1 3. rewrite !feed_line_fresh by exact Hc.
  rewrite <- Eline, feed_line_cells by assumption.
  cbn. rewrite andb_true_r. split; [reflexivity|].
  now rewrite ends_lf_append by discriminate.
Qed.

End PlainRows.

(** ** Integers are written in digits and read back *)

Section IntText.
Import Str PyInt.

Lemma digit_of_digit (k : N) :
  (k < 10)%N ->
  is_digit (digit_of k) = true /\ digit_value (digit_of k) = Z.of_N k.
Proof.
  intros Hk.
  assert (H : (k = 0 \/ k = 1 \/ k = 2 \/ k = 3 \/ k = 4 \/ k = 5 \/ k = 6 \/
               k = 7 \/ k = 8 \/ k = 9)%N) by lia.
  repeat destruct H as [->|H]; try subst k; split; reflexivity.
Qed.

Lemma digit_is_plain (c : ascii) :
  is_digit c = true -> negb (Csv.special c) = true /\ is_space c = false.
Proof.
  destruct c as [[] [] [] [] [] [] [] []]; intros H;
    try discriminate H; split; reflexivity.
Qed.

Lemma digits_plain (s : string) :
  forallb is_digit s = true -> plain s = true.
Proof.
  unfold plain. induction s as [|c s IH]; [reflexivity|].
  cbn [forallb]. intros [Hc Hs]%andb_prop.
  destruct (digit_is_plain _ Hc) as [-> _]. now apply IH.
Qed.

Lemma length_append (s t : string) :
  String.length (s ++ t) = (String.length s + String.length t)%nat.
Proof. induction s as [|c s IH]; simpl; [reflexivity | now rewrite IH]. Qed.

(** The digits of [n] are digits, and scanning them multiplies what was
    scanned before by a power of ten and adds [n]. *)
Lemma digits_spec (fuel : nat) :
  forall (n : N) (acc : string),
    Z.of_N n < 2 ^ Z.of_nat fuel -> (0 < fuel)%nat ->
    exists ds : string,
      digits fuel n acc = ds ++ acc /\
      ds <> "" /\
      forallb is_digit ds = true /\
      forall (a : Z) (b : bool) (rest : string),
        scan_digits a b (ds ++ rest)
        = scan_digits (a * 10 ^ Z.of_nat (String.length ds) + Z.of_N n)
                      false rest.
Proof.
  induction fuel as [|f IH]; intros n acc Hn Hfuel; [lia|].
  cbn [digits].
  assert (Hmod : (n mod 10 < 10)%N) by (apply N.mod_lt; lia).
  destruct (digit_of_digit Hmod) as [Hd Hv].
  destruct (N.ltb_spec n 10) as [Hlt|Hge].
  - exists (String (digit_of (n mod 10)) "").
    repeat split; [discriminate | cbn; now rewrite Hd |].
    intros a b rest. cbn [String.append scan_digits String.length].
    rewrite Hd, Hv. rewrite N.mod_small by exact Hlt.
    f_equal. change (10 ^ Z.of_nat 1) with 10. lia.
  - assert (Hdiv : Z.of_N (n / 10) < 2 ^ Z.of_nat f).
    { rewrite N2Z.inj_div. change (Z.of_N 10) with 10.
      rewrite Nat2Z.inj_succ, Z.pow_succ_r in Hn by lia.
      apply Z.div_lt_upper_bound; lia. }
    assert (Hf : (0 < f)%nat).
    { destruct f; [|lia]. change (2 ^ Z.of_nat 0) with 1 in Hdiv.
      assert (1 <= n / 10)%N by (apply N.div_le_lower_bound; lia). lia. }
    destruct (IH (n / 10)%N (String (digit_of (n mod 10)) acc) Hdiv Hf)
      as (ds & Eds & Hne & Hall & Hscan).
    exists (ds ++ String (digit_of (n mod 10)) "").
    rewrite Eds, append_assoc. repeat split.
    + destruct ds; [congruence | discriminate].
    + rewrite forallb_append, Hall. cbn. now rewrite Hd.
    + intros a b rest. rewrite append_assoc.
      cbn [String.append]. rewrite Hscan. cbn [scan_digits].
      rewrite Hd, Hv. f_equal.
      rewrite length_append. cbn [String.length].
      rewrite Nat2Z.inj_add, Z.pow_add_r by lia.
      change (10 ^ Z.of_nat 1) with 10.
      rewrite N2Z.inj_div, N2Z.inj_mod. change (Z.of_N 10) with 10.
      pose proof (Z.div_mod (Z.of_N n) 10 ltac:(lia)). lia.
Qed.

Lemma size_nat_bound (p : positive) :
  Z.pos p < 2 ^ Z.of_nat (Pos.size_nat p).
Proof.
  induction p as [p IH|p IH|]; cbn [Pos.size_nat];
    rewrite ?Nat2Z.inj_succ, ?Z.pow_succ_r by lia; [lia | lia |].
  reflexivity.
Qed.

Lemma str_N_spec (p : positive) :
  exists ds : string,
    str_N (Npos p) = ds /\ ds <> "" /\ forallb is_digit ds = true /\
    scan_digits 0 false ds = Some (Z.pos p, "").
Proof.
  unfold str_N.
  destruct (@digits_spec (S (N.size_nat (Npos p))) (Npos p) "")
    as (ds & Eds & Hne & Hall & Hscan).
  - cbn [N.size_nat Z.of_N]. rewrite Nat2Z.inj_succ, Z.pow_succ_r by lia.
    pose proof (size_nat_bound p). lia.
  - lia.
  - rewrite append_nil_r in Eds. exists ds. repeat split; try assumption.
    specialize (Hscan 0 false ""). rewrite append_nil_r in Hscan.
    rewrite Hscan. reflexivity.
Qed.

(** A string of digits is read as the number its scan gives, and with a
    minus sign in front as the opposite number. *)
Lemma int_of_digits (ds : string) (n : Z) :
  ds <> "" -> forallb is_digit ds = true ->
  scan_digits 0 false ds = Some (n, "") ->
  int ds = Some n /\ int (String "-" ds) = Some (- n).
Proof.
  intros Hne Hall Hscan.
  destruct ds as [|c ds]; [congruence|].
  cbn [forallb] in Hall. apply andb_prop in Hall as [Hc _].
  destruct (digit_is_plain _ Hc) as [_ Hsp].
  split.
  - unfold int. cbn [lstrip]. rewrite Hsp.
    replace (match String c ds with
             | String "+" r => (false, r)
             | String "-" r => (true, r)
             | _ => (false, String c ds)
             end) with (false, String c ds)
      by (destruct c as [[] [] [] [] [] [] [] []];
          try discriminate Hc; reflexivity).
    rewrite Hc, Hscan. reflexivity.
  - unfold int. cbn [lstrip]. change (is_space "-") with false. cbv iota.
    rewrite Hc, Hscan. reflexivity.
Qed.

(** [int(str(z)) == z] *)
Lemma int_str (z : Z) : int (str z) = Some z.
Proof.
  destruct z as [|p|p]; [reflexivity| |].
  - destruct (str_N_spec p) as (ds & E & Hne & Hall & Hscan).
    cbn [str]. rewrite E. now apply int_of_digits.
  - destruct (str_N_spec p) as (ds & E & Hne & Hall & Hscan).
    cbn [str]. rewrite E.
    change ("-" ++ ds) with (String "-" ds).
    now apply (int_of_digits Hne Hall Hscan).
Qed.

Lemma to_int_str (z : Z) : to_int (str z) = Ok z.
Proof. unfold to_int. now rewrite int_str. Qed.

Lemma str_plain (z : Z) : plain (str z) = true /\ str z <> "".
Proof.
  destruct z as [|p|p]; [split; [reflexivity | discriminate]| |];
    destruct (str_N_spec p) as (ds & E & Hne & Hall & _); cbn [str];
    rewrite E.
  - split; [now apply digits_plain | exact Hne].
  - split; [|discriminate].
    change ("-" ++ ds) with (String "-" ds).
    unfold plain. cbn [forallb]. now apply digits_plain.
Qed.

Lemma plain_append (s t : string) :
  plain (s ++ t) = plain s && plain t.
Proof. apply forallb_append. Qed.

Lemma pad_plain (width : nat) (s : string) :
  plain s = true -> plain (pad width s) = true.
Proof.
  intros Hs. unfold pad. rewrite plain_append, Hs, andb_true_r.
  induction (width - String.length s)%nat as [|k IH]; [reflexivity|].
  exact IH.
Qed.

Lemma pad_not_empty (width : nat) (s : string) :
  s <> "" -> pad width s <> "".
Proof.
  intros Hs. unfold pad.
  destruct (zeros (width - String.length s)); [exact Hs | discriminate].
Qed.

Lemma isoformat_plain (d : Date) :
  plain (isoformat d) = true /\ isoformat d <> "".
Proof.
  unfold isoformat. split.
  - rewrite !plain_append.
    rewrite !pad_plain by apply str_plain. reflexivity.
  - pose proof (pad_not_empty 4 (proj2 (str_plain (Z.of_nat (year d))))) as H.
    destruct (pad 4 (str (Z.of_nat (year d)))); [congruence | discriminate].
Qed.

End IntText.

(** ** Appending *)

Section Appending.
Context `{L : PyLib}.

Lemma int_row_cells (today : Date) (a b t : Z) :
  map Py.csv_str [VStr (isoformat today); VInt a; VInt b; VInt t]
  = int_row today a b t.
Proof. reflexivity. Qed.

Lemma int_row_plain (today : Date) (a b t : Z) :
  forallb plain (int_row today a b t) = true.
Proof.
  unfold int_row. cbn [forallb].
  now rewrite (proj1 (isoformat_plain today)), !(proj1 (str_plain _)).
Qed.

Lemma int_row_written (today : Date) (a b t : Z) :
  rows_of (Csv.writerow (int_row today a b t)) = Ok [int_row today a b t] /\
  Csv.well_terminated (Csv.writerow (int_row today a b t)) = true.
Proof.
  apply rows_of_writerow; [apply int_row_plain | discriminate | discriminate].
Qed.

Lemma int_row_text (today : Date) (a b t : Z) :
  Csv.writerow (int_row today a b t)
  = isoformat today ++ "," ++ PyInt.str a ++ "," ++ PyInt.str b ++ "," ++
    PyInt.str t ++ Csv.CRLF.
Proof.
  rewrite writerow_plain by (apply int_row_plain || discriminate).
  unfold int_row. cbn [Str.join]. now rewrite !append_assoc.
Qed.

Lemma header_written :
  Csv.writerow HEADER = "date,com,net,total" ++ Csv.CRLF /\
  rows_of (Csv.writerow HEADER) = Ok [HEADER] /\
  Csv.well_terminated (Csv.writerow HEADER) = true.
Proof. repeat split. Qed.

Lemma parse_counts_ints (data : value) (a b : Z) (total : value) :
  parse_counts data = Ok (VInt a, VInt b, total) -> total = VInt (a + b).
Proof.
  unfold parse_counts.
  destruct (domain_name_counts data "comDomainNameBase") as [com|]; cbn [rbind];
    [|discriminate].
  destruct (domain_name_counts data "netDomainNameBase") as [net|]; cbn [rbind];
    [|discriminate].
  destruct (Py.add com net) as [t|] eqn:E; cbn [rbind]; [|discriminate].
  intros [= -> -> ->]. cbn in E. congruence.
Qed.

Lemma format3_ints (a b t : Z) :
  format3 (VInt a) (VInt b) (VInt t)
  = Ok (PyInt.format_comma a, PyInt.format_comma b, PyInt.format_comma t).
Proof. reflexivity. Qed.

(** C3.  A run against an absent or empty log with fetched integer counts
    [(a, b)] takes the Appended exit and leaves a log of two lines: the
    header line and the line [<today>,a,b,a+b], each ended by CR LF; read
    as CSV the log has exactly the header row and that data row. *)
Theorem first_run_writes_header_and_row (w : World) (data total : value)
    (a b : Z) :
  data_csv w = None \/ data_csv w = Some "" ->
  fst (fetch_zone_data w) = Ok data ->
  parse_counts data = Ok (VInt a, VInt b, total) ->
  fst (main w) = Ok Appended /\
  data_csv (snd (main w)) =
    Some ("date,com,net,total" ++ Csv.CRLF ++
          isoformat (clock w (ticks w)) ++ "," ++ PyInt.str a ++ "," ++
          PyInt.str b ++ "," ++ PyInt.str (a + b) ++ Csv.CRLF) /\
  (forall text, data_csv (snd (main w)) = Some text ->
     rows_of text =
       Ok [HEADER;
           [isoformat (clock w (ticks w)); PyInt.str a; PyInt.str b;
            PyInt.str (a + b)]]).
Proof.
  intros Hfile Hfetch Hcounts.
  rewrite fetch_zone_data_run in Hfetch; cbn [fst] in Hfetch.
  pose proof (parse_counts_ints _ Hcounts) as ->.
  assert (Hlatest : latest_in (data_csv w) = Ok None)
    by (destruct Hfile as [-> | ->]; reflexivity).
  assert (Hheader : header_in (data_csv w) = Ok false)
    by (destruct Hfile as [-> | ->]; reflexivity).
  assert (Hcontent : content (data_csv w) = "")
    by (destruct Hfile as [-> | ->]; reflexivity).
  rewrite main_run, Hfetch, Hcounts, Hlatest, Hheader, Hcontent.
  cbn [same_counts]. cbv zeta. rewrite format3_ints.
  cbn [fst snd print tick set_data_csv data_csv].
  change ("" ++ ?x) with x.
  unfold appended. rewrite int_row_cells.
  split; [reflexivity|]. split.
  - now rewrite int_row_text, (proj1 header_written), !append_assoc.
  - intros text Htext.
    assert (E : Csv.writerow HEADER ++
                Csv.writerow (int_row (clock w (ticks w)) a b (a + b)) = text)
      by congruence.
    rewrite <- E, rows_of_append by apply header_written.
    rewrite (proj1 (proj2 header_written)).
    now rewrite (proj1 (int_row_written _ _ _ _)).
Qed.

(** C2, amended.  When the two fetched counts are integers [a] and [b], a
    run leaves the log as it was or adds to it, after the header line if it
    adds one, one line that reads back as one row of four cells, whose
    second, third and fourth cells are read by [int] as [a], [b] and
    [a + b]. *)
Theorem appended_row_total_is_sum (w : World) (data total : value) (a b : Z) :
  fst (fetch_zone_data w) = Ok data ->
  parse_counts data = Ok (VInt a, VInt b, total) ->
  data_csv (snd (main w)) = data_csv w \/
  exists (h : bool) (d sa sb st : string),
    data_csv (snd (main w)) =
      Some (content (data_csv w) ++
            (if h then "" else Csv.writerow HEADER) ++
            Csv.writerow [d; sa; sb; st]) /\
    rows_of (Csv.writerow [d; sa; sb; st]) = Ok [[d; sa; sb; st]] /\
    PyInt.int sa = Some a /\ PyInt.int sb = Some b /\
    PyInt.int st = Some (a + b).
Proof.
  intros Hfetch Hcounts.
  rewrite fetch_zone_data_run in Hfetch; cbn [fst] in Hfetch.
  pose proof (parse_counts_ints _ Hcounts) as ->.
  rewrite main_run, Hfetch, Hcounts.
  destruct (latest_in (data_csv w)) as [latest|e]; [|now left].
  destruct (same_counts latest (VInt a, VInt b, VInt (a + b))); [now left|].
  destruct (header_in (data_csv w)) as [h|e]; [|now left].
  right. cbv zeta. rewrite format3_ints.
  cbn [snd print tick set_data_csv data_csv].
  unfold appended. rewrite int_row_cells.
  exists h, (isoformat (clock w (ticks w))), (PyInt.str a), (PyInt.str b),
    (PyInt.str (a + b)).
  split; [reflexivity|]. split; [apply int_row_written|].
  now rewrite !int_str.
Qed.




End Appending.

(** ** The run after an append *)

Section RunAgain.
Context `{L : PyLib}.

Lemma last_row_app {A} (xs : list A) (x : A) :
  last_row (xs ++ [x]) = Some x.
Proof.
  induction xs as [|y xs IH]; [reflexivity|].
  cbn [app last_row]. rewrite IH.
  destruct (xs ++ [x])%list eqn:E; [|reflexivity].
  now destruct xs.
Qed.

Lemma parse_last_int_row (today : Date) (a b t : Z) :
  parse_last (int_row today a b t) = Ok (a, b, t).
Proof.
  unfold parse_last, int_row. cbn [index nth_error rbind].
  now rewrite !to_int_str.
Qed.

Lemma appended_rows (h : bool) (today : Date) (a b t : Z) :
  rows_of (appended h today (VInt a) (VInt b) (VInt t))
  = Ok ((if h then [] else [HEADER]) ++ [int_row today a b t])%list /\
  Csv.well_terminated (appended h today (VInt a) (VInt b) (VInt t)) = true.
Proof.
  unfold appended. rewrite int_row_cells.
  destruct (int_row_written today a b t) as [Hrows Hwt].
  destruct h; [now split|]. split.
  - rewrite rows_of_append by apply header_written.
    now rewrite (proj1 (proj2 header_written)), Hrows.
  - apply well_terminated_append; [apply header_written | exact Hwt].
Qed.

(** A log that ends where a record ends still does after an append of
    integer counts, and [get_latest_row] then finds these counts. *)
Lemma latest_after_append (file : option string) (h : bool) (today : Date)
    (a b t : Z) :
  Csv.well_terminated (content file) = true ->
  header_in file = Ok h ->
  let text := content file ++ appended h today (VInt a) (VInt b) (VInt t) in
  Csv.well_terminated text = true /\
  latest_in (Some text) = Ok (Some (a, b, t)).
Proof.
  intros Hwt Hh text. subst text.
  destruct (appended_rows h today a b t) as [Hrows Hwt'].
  split; [now apply well_terminated_append|].
  unfold latest_in, last_data_row. fold (rows_of (content file ++
    appended h today (VInt a) (VInt b) (VInt t))).
  rewrite rows_of_append, Hrows by exact Hwt.
  destruct (rows_of_total (content file)) as [rows Erows].
  rewrite Erows. cbn [rbind].
  assert (Hh' : header_in file = rbind (Ok (hd_error rows)) (fun first =>
            match first with
            | None => Ok false
            | Some cells => rbind (index cells 0) (fun c => Ok (is_date c))
            end)).
  { destruct file as [old|]; cbn [content] in Erows.
    - cbn [header_in]. now rewrite (first_row_of_rows _ Erows).
    - injection Erows as <-. reflexivity. }
  rewrite Hh in Hh'. cbn [rbind] in Hh'.
  assert (Hsel : exists data_rows,
             select_data_rows
               (rows ++ (if h then [] else [HEADER]) ++
                [int_row today a b t])%list
             = Ok (data_rows ++ [int_row today a b t])%list).
  { destruct rows as [|first rest]; cbn [hd_error] in Hh'.
    - injection Hh' as ->. now exists [].
    - unfold select_data_rows. cbn [app].
      destruct (index first 0) as [c|]; cbn [rbind] in *; [|discriminate].
      injection Hh' as ->.
      destruct (is_date c).
      + exists rest. cbn [List.length app tl].
        destruct (Nat.ltb_spec 1 (S (List.length (rest ++ [int_row today a b t]))));
          [reflexivity|].
        rewrite length_app in *. cbn [List.length] in *. lia.
      + exists (first :: rest ++ [HEADER])%list.
        cbn [app]. now rewrite <- app_assoc. }
  destruct Hsel as [data_rows ->]. cbn [rbind].
  rewrite last_row_app, parse_last_int_row.
  reflexivity.
Qed.

(** The second scenario of the specification, for every log that ends
    where a record ends: the run after a run that appended integer counts,
    with the same counts fetched, takes the Skipped exit and leaves the log
    as it is. *)
Lemma run_after_append_skips (w : World) (data total : value) (a b : Z) :
  Csv.well_terminated (content (data_csv w)) = true ->
  fst (fetch_zone_data w) = Ok data ->
  parse_counts data = Ok (VInt a, VInt b, total) ->
  fst (main w) = Ok Appended ->
  let w1 := snd (main w) in
  main w1 = (Ok Skipped, snd (print NO_CHANGE w1)) /\
  Csv.well_terminated (content (data_csv w1)) = true.
Proof.
  intros Hwt Hfetch Hcounts Hrun w1.
  rewrite fetch_zone_data_run in Hfetch; cbn [fst] in Hfetch.
  pose proof (parse_counts_ints _ Hcounts) as ->.
  assert (Hw1 : exists h : bool,
             header_in (data_csv w) = Ok h /\
             network w1 = network w /\
             data_csv w1 =
               Some (content (data_csv w) ++
                     appended h (clock w (ticks w))
                              (VInt a) (VInt b) (VInt (a + b)))).
  { subst w1. rewrite main_run, Hfetch, Hcounts in Hrun |- *.
    destruct (latest_in (data_csv w)) as [latest|e]; [|discriminate].
    destruct (same_counts latest (VInt a, VInt b, VInt (a + b)));
      [discriminate|].
    destruct (header_in (data_csv w)) as [h|e]; [|discriminate].
    exists h. cbv zeta. rewrite format3_ints. now repeat split. }
  destruct Hw1 as (h & Hh & Hnet & Hfile).
  destruct (latest_after_append (data_csv w) (clock w (ticks w)) a b (a + b)
              Hwt Hh) as [Hwt' Hlatest].
  rewrite main_run, Hnet, Hfetch, Hcounts, Hfile, Hlatest.
  unfold same_counts, Py.tuple_eq, Py.int_eq. rewrite !Z.eqb_refl.
  cbn [andb content]. split; [reflexivity | exact Hwt'].
Qed.

End RunAgain.

(** ** Where the header row lands *)

Section HeaderPlace.
Context `{L : PyLib}.

Lemma digit_lower (c : ascii) :
  Str.is_digit c = true -> (Str.lower_char c =? "d")%char = false.
Proof.
  destruct c as [[] [] [] [] [] [] [] []]; intros Hc;
    try discriminate Hc; reflexivity.
Qed.

Lemma str_starts_with_digit (n : nat) :
  exists (c : ascii) (s : string),
    PyInt.str (Z.of_nat n) = String c s /\ Str.is_digit c = true.
Proof.
  destruct (Z.of_nat n) as [|p|p] eqn:E; [now exists "0"%char, "" | | lia].
  destruct (str_N_spec p) as (ds & Eds & Hne & Hall & _). cbn [PyInt.str].
  rewrite Eds. destruct ds as [|c s]; [congruence|].
  cbn [Str.forallb] in Hall. apply andb_prop in Hall as [Hc _].
  now exists c, s.
Qed.

(** A date is no header cell. *)
Lemma isoformat_is_no_header (d : Date) : is_date (isoformat d) = false.
Proof.
  unfold is_date, isoformat, PyInt.pad.
  destruct (str_starts_with_digit (year d)) as (c & s & -> & Hc).
  destruct (4 - String.length (String c s))%nat; cbn [PyInt.zeros];
    cbn [String.append Str.lower String.eqb]; [|reflexivity].
  now rewrite (digit_lower _ Hc).
Qed.

(** On a log that ends where a record ends, and that has no row or starts
    with the header row and has no other, an append of integer counts
    leaves a log that starts with the header row and has no other. *)
Lemma header_stays_first (file : option string) (h : bool) (today : Date)
    (a b t : Z) (rows : list (list string)) :
  Csv.well_terminated (content file) = true ->
  rows_of (content file) = Ok rows ->
  header_in file = Ok h ->
  rows = [] \/ (exists first rest, rows = first :: rest /\
                                   is_header_row first = true) ->
  header_only_first rows = true ->
  exists rows' : list (list string),
    rows_of (content file ++ appended h today (VInt a) (VInt b) (VInt t))
    = Ok rows' /\
    (exists first rest, rows' = first :: rest /\ is_header_row first = true) /\
    header_only_first rows' = true.
Proof.
  intros Hwt Hrows Hh Hfirst Honly.
  destruct (appended_rows h today a b t) as [Happ _].
  rewrite rows_of_append, Hrows, Happ by exact Hwt. cbn [rbind].
  assert (Hdate : negb (is_header_row (int_row today a b t)) = true)
    by (cbn [int_row is_header_row]; now rewrite isoformat_is_no_header).
  assert (Hh' : header_in file = Ok (match rows with
                                     | first :: _ => is_header_row first
                                     | [] => false
                                     end)).
  { destruct Hfirst as [-> | (first & rest & -> & Hf)].
    - destruct file as [old|]; [|reflexivity]. cbn [content] in Hrows.
      cbn [header_in]. now rewrite (first_row_of_rows _ Hrows).
    - destruct file as [old|]; [|discriminate Hrows]. cbn [content] in Hrows.
      cbn [header_in]. rewrite (first_row_of_rows _ Hrows).
      destruct first; [discriminate Hf | reflexivity]. }
  rewrite Hh in Hh'. injection Hh' as ->.
  eexists; split; [reflexivity|].
  destruct Hfirst as [-> | (first & rest & -> & Hf)].
  - split; [now exists HEADER, [int_row today a b t]|].
    unfold header_only_first. cbn [app tl forallb]. now rewrite Hdate.
  - rewrite Hf. split; [now exists first, (rest ++ [int_row today a b t])%list|].
    unfold header_only_first in *. cbn [app tl] in *.
    now rewrite forallb_app, Honly; cbn [forallb]; rewrite Hdate.
Qed.

(** On a log that ends where a record ends and starts with a row that is
    no header row, an append writes the header row after the rows of the
    log. *)
Lemma header_lands_last (text : string) (today : Date) (a b t : Z)
    (c : string) (cells : list string) (rows : list (list string)) :
  Csv.well_terminated text = true ->
  rows_of text = Ok ((c :: cells) :: rows) ->
  is_date c = false ->
  header_in (Some text) = Ok false /\
  rows_of (text ++ appended false today (VInt a) (VInt b) (VInt t))
  = Ok (((c :: cells) :: rows) ++ [HEADER; int_row today a b t])%list /\
  header_only_first (((c :: cells) :: rows) ++ [HEADER; int_row today a b t])
  = false.
Proof.
  intros Hwt Hrows Hc.
  destruct (appended_rows false today a b t) as [Happ _].
  split; [|split].
  - cbn [header_in]. rewrite (first_row_of_rows _ Hrows).
    cbn [hd_error rbind index nth_error]. now rewrite Hc.
  - now rewrite rows_of_append, Hrows, Happ by exact Hwt.
  - unfold header_only_first. cbn [app tl]. rewrite forallb_app.
    cbn [forallb is_header_row]. change (is_date "date") with true.
    cbn [negb andb]. apply andb_false_r.
Qed.

End HeaderPlace.

(** ** Runs on concrete worlds *)

(** The first scenario of the specification: an empty directory, counts
    160000000 and 13000000. *)
Example first_run_scenario :
  Demo.main (Demo.world "160000000 13000000" None)
  = (Ok Appended,
     {| network := Some "160000000 13000000";
        data_csv := Some (Demo.log ["date,com,net,total";
                                    "2026-11-04,160000000,13000000,173000000"]);
        clock := fun _ => Demo.today;
        ticks := 2;
        stdout := ["Appended: 2026-11-04 | .com: 160,000,000 | .net: 13,000,000 | total: 173,000,000"] |}).
Proof. reflexivity. Qed.

(** The second scenario: the same counts on the next run. *)
Example second_run_scenario :
  let w1 := snd (Demo.main (Demo.world "160000000 13000000" None)) in
  Demo.main w1 = (Ok Skipped, snd (print NO_CHANGE w1)).
Proof. reflexivity. Qed.

Example reader_examples :
  map rows_of
      ["a,b"; "x" ++ Csv.CRLF ++ Csv.CRLF ++ "y";
       String Csv.QUOTE ("a,b" ++ String Csv.QUOTE ",c");
       String Csv.LF "1,2"]
  = [Ok [["a"; "b"]]; Ok [["x"]; []; ["y"]]; Ok [["a,b"; "c"]];
     Ok [[]; ["1"; "2"]]].
Proof. reflexivity. Qed.

Example int_examples :
  map PyInt.int [" 5 "; "+5"; "-5"; "- 5"; "1_000"; "_1"; "1_"; "1__0"; "007";
                 ""; "5" ++ String "009" (String "010" ""); "1.0"; "com"]
  = [Some 5; Some 5; Some (-5); None; Some 1000; None; None; None; Some 7;
     None; Some 5; None; None].
Proof. reflexivity. Qed.

Example is_date_examples :
  map is_date ["date"; "Date"; "DATE"; "dAtE"; "date "; "dates"; ""]
  = [true; true; true; true; false; false; false].
Proof. reflexivity. Qed.


(** C2, at an absent log and the counts 100 and 200. *)
Lemma appended_row_total_is_sum_witness :
  let w := Demo.world "100 200" None in
  data_csv (snd (Demo.main w)) = data_csv w \/
  exists (h : bool) (d sa sb st : string),
    data_csv (snd (Demo.main w)) =
      Some (content (data_csv w) ++
            (if h then "" else Csv.writerow HEADER) ++
            Csv.writerow [d; sa; sb; st]) /\
    rows_of (Csv.writerow [d; sa; sb; st]) = Ok [[d; sa; sb; st]] /\
    PyInt.int sa = Some 100 /\ PyInt.int sb = Some 200 /\
    PyInt.int st = Some (100 + 200).
Proof.
  apply (@appended_row_total_is_sum Demo.no_float Demo.lib
           (Demo.world "100 200" None)
           (zone_counts (VInt 100) (VInt 200)) (VInt 300) 100 200);
    reflexivity.
Defined.

(** C2 as stated fails: with the counts given as the texts 1 and 2, the
    run appends the row [2026-11-04,1,2,12], which [get_latest_row] then
    reads as the triple (1, 2, 12); the run ends in the [ValueError] of the
    report line, after the append. *)
Lemma text_counts_are_concatenated :
  let w := Demo.world "'1' '2'" None in
  let log := Demo.log ["date,com,net,total"; "2026-11-04,1,2,12"] in
  fst (@fetch_zone_data Demo.no_float Demo.lib w)
  = Ok (zone_counts (VStr "1") (VStr "2")) /\
  Demo.parse_counts (zone_counts (VStr "1") (VStr "2"))
  = Ok (VStr "1", VStr "2", VStr "12") /\
  fst (Demo.main w) = Raise ValueError /\
  data_csv (snd (Demo.main w)) = Some log /\
  rows_of log = Ok [HEADER; ["2026-11-04"; "1"; "2"; "12"]] /\
  fst (get_latest_row (snd (Demo.main w))) = Ok (Some (1, 2, 12)) /\
  12 <> 1 + 2.
Proof. repeat split; reflexivity || discriminate. Qed.

(** C3, at an absent log and the counts 100 and 200. *)
Lemma first_run_writes_header_and_row_witness :
  let w := Demo.world "100 200" None in
  fst (Demo.main w) = Ok Appended /\
  data_csv (snd (Demo.main w)) =
    Some ("date,com,net,total" ++ Csv.CRLF ++
          "2026-11-04" ++ "," ++ "100" ++ "," ++ "200" ++ "," ++ "300" ++
          Csv.CRLF) /\
  (forall text, data_csv (snd (Demo.main w)) = Some text ->
     rows_of text = Ok [HEADER; ["2026-11-04"; "100"; "200"; "300"]]).
Proof.
  apply (@first_run_writes_header_and_row Demo.no_float Demo.lib
           (Demo.world "100 200" None)
           (zone_counts (VInt 100) (VInt 200)) (VInt 300) 100 200);
    [left|..]; reflexivity.
Defined.


(** C5 fails on the code: [get_latest_row] raises on a log that starts
    with an empty line, and the run stops there. *)
Lemma empty_first_line_raises :
  let w := Demo.world "100 200" (Some (String Csv.LF "")) in
  let w' := Demo.world "100 200"
              (Some (Csv.CRLF ++ Demo.log ["2026-11-03,100,200,300"])) in
  rows_of (String Csv.LF "") = Ok [[]] /\
  get_latest_row w = (Raise IndexError, w) /\
  Demo.main w = (Raise IndexError, w) /\
  get_latest_row w' = (Raise IndexError, w') /\
  Demo.main w' = (Raise IndexError, w').
Proof. repeat split; reflexivity. Qed.





(** C9, at a log of two rows and new counts. *)
Lemma append_extends_log_witness :
  let text := Demo.log ["date,com,net,total"; "2026-11-03,100,200,299"] in
  let w := Demo.world "100 200" (Some text) in
  (exists suffix : string,
      content (data_csv (snd (Demo.append_to_csv (VInt 1) (VInt 2) (VInt 3) w)))
      = text ++ suffix) /\
  (exists suffix : string,
      content (data_csv (snd (Demo.main w))) = text ++ suffix) /\
  data_csv (snd (Demo.main w))
  = Some (Demo.log ["date,com,net,total"; "2026-11-03,100,200,299";
                    "2026-11-04,100,200,300"]).
Proof.
  destruct (@append_extends_log Demo.no_float Demo.lib
              (VInt 1) (VInt 2) (VInt 3)
              (Demo.world "100 200"
                 (Some (Demo.log ["date,com,net,total";
                                  "2026-11-03,100,200,299"]))))
    as (Happend & Hmain & _).
  split; [exact Happend | split; [exact Hmain | reflexivity]].
Defined.
(** * Further properties of the five functions *)

(** ** When the file functions raise *)

Section FileErrors.
Context `{L : PyLib}.

Lemma empty_first_row_raises (file : option string) :
  empty_first_row file = true ->
  latest_in file = Raise IndexError /\ header_in file = Raise IndexError.
Proof.
  unfold empty_first_row. destruct file as [text|]; [|discriminate].
  destruct (rows_of text) as [[|[|c first] rows]|] eqn:Erows; try discriminate.
  intros _. split.
  - unfold latest_in, last_data_row. fold (rows_of text). now rewrite Erows.
  - cbn [header_in]. now rewrite (first_row_of_rows _ Erows).
Qed.

Lemma other_first_row_returns (file : option string) :
  empty_first_row file = false ->
  (exists l : option (Z * Z * Z), latest_in file = Ok l) /\
  header_in file = Ok (starts_with_header file).
Proof.
  intros Hfirst. split.
  - destruct (latest_in file) as [l|e] eqn:El; [now exists l|].
    destruct (@get_latest_row_raises (file_world file) e) as (_ & t & rs & Ef & Er).
    + rewrite get_latest_row_run. exact El.
    + cbn [file_world data_csv] in Ef. subst file.
      unfold empty_first_row in Hfirst. rewrite Er in Hfirst. discriminate.
  - unfold empty_first_row, starts_with_header in *.
    destruct file as [text|]; [|reflexivity]. cbn [header_in].
    destruct (rows_of_total text) as [rows Erows]. rewrite Erows in *.
    rewrite (first_row_of_rows _ Erows).
    destruct rows as [|[|c first] rows]; try discriminate; reflexivity.
Qed.


(** X1.  [get_latest_row] returns [None], and changes nothing, when there
    is no file, when the file is empty, and when its only row is a header
    row. *)
Theorem no_data_rows_no_latest (w : World) :
  data_csv w = None \/ data_csv w = Some "" \/
  (exists (text c : string) (cells : list string),
      data_csv w = Some text /\ rows_of text = Ok [c :: cells] /\
      is_date c = true) ->
  get_latest_row w = (Ok None, w).
Proof.
  rewrite get_latest_row_run.
  intros [-> | [-> | (text & c & cells & -> & Hrows & Hc)]];
    [reflexivity | reflexivity |].
  unfold latest_in, last_data_row. fold (rows_of text). rewrite Hrows.
  cbn [rbind select_data_rows index nth_error]. now rewrite Hc.
Qed.



(** X4.  A run whose fetch or whose parse fails raises the same exception
    and leaves no trace: no file is created or changed, nothing is printed,
    the clock is not read. *)
Theorem failed_fetch_leaves_no_trace (w : World) (e : exn) :
  fst (fetch_zone_data w) = Raise e \/
  (exists data : value,
      fst (fetch_zone_data w) = Ok data /\ parse_counts data = Raise e) ->
  main w = (Raise e, w).
Proof.
  rewrite fetch_zone_data_run, main_run. cbn [fst].
  intros [-> | (data & -> & ->)]; reflexivity.
Qed.

End FileErrors.

(** ** Appending and reading back *)

Section AppendAndRead.
Context `{L : PyLib}.

Lemma append_returns (com net total : value) (w : World) :
  fst (append_to_csv com net total w) = Ok tt ->
  empty_first_row (data_csv w) = false /\
  header_in (data_csv w) = Ok (starts_with_header (data_csv w)) /\
  append_to_csv com net total w =
    (Ok tt,
     set_data_csv
       (Some (content (data_csv w) ++
              appended (starts_with_header (data_csv w)) (clock w (ticks w))
                       com net total))
       (tick w)).
Proof.
  rewrite append_to_csv_run.
  destruct (empty_first_row (data_csv w)) eqn:E.
  - destruct (empty_first_row_raises _ E) as [_ ->]. discriminate.
  - destruct (other_first_row_returns _ E) as [_ ->]. now intros _.
Qed.

Lemma starts_with_header_rows (text : string) (rows : list (list string)) :
  rows_of text = Ok rows ->
  starts_with_header (Some text) = is_header_row (hd [] rows).
Proof.
  unfold starts_with_header. intros ->.
  destruct rows as [|[|c first] rows]; reflexivity.
Qed.

(** X5.  Written and read back: after [append_to_csv] has returned for
    integer counts on a log that ends where a record ends (or on no log),
    [get_latest_row] returns these three counts. *)
Theorem appended_counts_are_read_back (w : World) (a b t : Z) :
  Csv.well_terminated (content (data_csv w)) = true ->
  fst (append_to_csv (VInt a) (VInt b) (VInt t) w) = Ok tt ->
  get_latest_row (snd (append_to_csv (VInt a) (VInt b) (VInt t) w))
  = (Ok (Some (a, b, t)), snd (append_to_csv (VInt a) (VInt b) (VInt t) w)).
Proof.
  intros Hwt Hok. destruct (append_returns _ _ _ _ Hok) as (_ & Hh & ->).
  rewrite get_latest_row_run. cbn [snd set_data_csv data_csv].
  now rewrite (proj2 (latest_after_append _ (clock w (ticks w)) a b t Hwt Hh)).
Qed.

(** X6.  An append keeps the rows of a log that ends where a record ends:
    the rows after are the rows before, in their order, then the header row
    if the log did not start with one, then the new row; and the log again
    ends where a record ends. *)
Theorem append_keeps_rows (w : World) (a b t : Z)
    (rows : list (list string)) :
  Csv.well_terminated (content (data_csv w)) = true ->
  rows_of (content (data_csv w)) = Ok rows ->
  fst (append_to_csv (VInt a) (VInt b) (VInt t) w) = Ok tt ->
  exists text' : string,
    data_csv (snd (append_to_csv (VInt a) (VInt b) (VInt t) w)) = Some text' /\
    rows_of text' =
      Ok (rows ++
          (if starts_with_header (data_csv w) then [] else [HEADER]) ++
          [int_row (clock w (ticks w)) a b t])%list /\
    Csv.well_terminated text' = true.
Proof.
  intros Hwt Hrows Hok. destruct (append_returns _ _ _ _ Hok) as (_ & Hh & ->).
  eexists. split; [reflexivity|].
  destruct (appended_rows (starts_with_header (data_csv w))
              (clock w (ticks w)) a b t) as [Happ Hwt'].
  split.
  - now rewrite rows_of_append, Hrows, Happ by exact Hwt.
  - now apply well_terminated_append.
Qed.

(** X7.  The header row stays the first and only header row: on a log
    that ends where a record ends, and that has no row or starts with the
    header row and has no other, an append of integer counts returns and
    leaves a log that starts with the header row and has no other. *)
Theorem header_row_stays_first (w : World) (a b t : Z)
    (rows : list (list string)) :
  Csv.well_terminated (content (data_csv w)) = true ->
  rows_of (content (data_csv w)) = Ok rows ->
  rows = [] \/ starts_with_header (data_csv w) = true ->
  header_only_first rows = true ->
  exists (text' : string) (rows' : list (list string)),
    append_to_csv (VInt a) (VInt b) (VInt t) w
    = (Ok tt, set_data_csv (Some text') (tick w)) /\
    rows_of text' = Ok rows' /\
    starts_with_header (Some text') = true /\
    header_only_first rows' = true.
Proof.
  intros Hwt Hrows Hfirst Honly.
  assert (Hshape : rows = [] \/
            exists first rest, rows = first :: rest /\
                               is_header_row first = true).
  { destruct Hfirst as [-> | Hs]; [now left|]. right.
    unfold starts_with_header in Hs.
    destruct (data_csv w) as [text|]; [|discriminate].
    cbn [content] in Hrows. rewrite Hrows in Hs.
    destruct rows as [|[|c first] rest]; try discriminate.
    now exists (c :: first), rest. }
  assert (E : empty_first_row (data_csv w) = false).
  { unfold empty_first_row. destruct (data_csv w) as [text|]; [|reflexivity].
    cbn [content] in Hrows. rewrite Hrows.
    destruct Hshape as [-> | (first & rest & -> & Hf)]; [reflexivity|].
    destruct first; [discriminate Hf | reflexivity]. }
  destruct (other_first_row_returns _ E) as [_ Hh].
  destruct (header_stays_first (data_csv w) (clock w (ticks w)) a b t
              Hwt Hrows Hh Hshape Honly)
    as (rows' & Hrows' & (first & rest & -> & Hf) & Honly').
  rewrite append_to_csv_run, Hh.
  eexists _, _. split; [reflexivity|]. split; [exact Hrows'|]. split.
  - now rewrite (starts_with_header_rows _ Hrows').
  - exact Honly'.
Qed.

(** X8.  On a log that ends where a record ends and starts with a row
    that is no header row, an append returns and writes the header row
    after the rows of the log; the log still does not start with a header
    row, so that the next append writes the header row again. *)
Theorem header_after_headerless_rows (w : World) (text c : string)
    (cells : list string) (rows : list (list string)) (a b t : Z) :
  data_csv w = Some text ->
  Csv.well_terminated text = true ->
  rows_of text = Ok ((c :: cells) :: rows) ->
  is_date c = false ->
  exists text' : string,
    append_to_csv (VInt a) (VInt b) (VInt t) w
    = (Ok tt, set_data_csv (Some text') (tick w)) /\
    rows_of text' =
      Ok (((c :: cells) :: rows) ++
          [HEADER; int_row (clock w (ticks w)) a b t])%list /\
    starts_with_header (Some text') = false.
Proof.
  intros Hfile Hwt Hrows Hc.
  destruct (header_lands_last text (clock w (ticks w)) a b t Hwt Hrows Hc)
    as (Hh & Hrows' & _).
  rewrite append_to_csv_run, Hfile, Hh. cbn [content].
  eexists. split; [reflexivity|]. split; [exact Hrows'|].
  now rewrite (starts_with_header_rows _ Hrows').
Qed.

End AppendAndRead.

(** ** Whole runs *)

Section WholeRuns.
Context `{L : PyLib}.



Lemma writerow_not_empty (cells : list string) :
  exists (c : ascii) (s : string), Csv.writerow cells = String c s.
Proof.
  assert (Hx : forall x : string,
             exists (c : ascii) (s : string), x ++ Csv.CRLF = String c s)
    by (intros [|c x]; eexists _, _; reflexivity).
  unfold Csv.writerow.
  destruct cells as [|[|c0 s0] [|c1 rest]]; try apply Hx.
  eexists _, _; reflexivity.
Qed.

(** X10.  What a run leaves behind, exit by exit.  Skipped: one line
    printed, the no-change line, and nothing else changed.  Appended: one
    line printed, the clock read twice, and the log longer than it was.
    Raised: nothing printed. *)
Theorem run_outcomes (w : World) :
  match fst (main w) with
  | Ok Skipped => snd (main w) = snd (print NO_CHANGE w)
  | Ok Appended =>
      (exists line : string, stdout (snd (main w)) = (stdout w ++ [line])%list) /\
      ticks (snd (main w)) = S (S (ticks w)) /\
      (exists (c : ascii) (suffix : string),
          data_csv (snd (main w)) =
            Some (content (data_csv w) ++ String c suffix))
  | Raise _ => stdout (snd (main w)) = stdout w
  end.
Proof.
  rewrite main_run.
  destruct (fetch_in (network w)) as [data|e]; [|reflexivity].
  destruct (parse_counts data) as [[[com net] total]|e]; [|reflexivity].
  destruct (latest_in (data_csv w)) as [latest|e]; [|reflexivity].
  destruct (same_counts latest (com, net, total)); [reflexivity|].
  destruct (header_in (data_csv w)) as [h|e]; [|reflexivity].
  cbv zeta.
  destruct (format3 com net total) as [[[c n] t]|e]; [|reflexivity].
  cbn [fst snd print tick set_data_csv data_csv stdout ticks].
  split; [eexists; reflexivity|]. split; [reflexivity|].
  unfold appended.
  destruct h; [|eexists _, _; reflexivity].
  destruct (writerow_not_empty
              (map Py.csv_str
                 [VStr (isoformat (clock w (ticks w))); com; net; total]))
    as (ch & s & ->).
  now exists ch, s.
Qed.

(** X11.  After a run that returned, the next run skips: with integer
    counts fetched, on a log that ends where a record ends, once a run has
    taken either exit a second run in the world it left takes the Skipped
    exit and leaves the log as it is. *)
Theorem next_run_skips (w : World) (data total : value) (a b : Z)
    (d : Decision) :
  Csv.well_terminated (content (data_csv w)) = true ->
  fst (fetch_zone_data w) = Ok data ->
  parse_counts data = Ok (VInt a, VInt b, total) ->
  fst (main w) = Ok d ->
  main (snd (main w))
  = (Ok Skipped, snd (print NO_CHANGE (snd (main w)))) /\
  data_csv (snd (main (snd (main w)))) = data_csv (snd (main w)).
Proof.
  intros Hwt Hfetch Hcounts Hrun.
  assert (Hskip : main (snd (main w))
                  = (Ok Skipped, snd (print NO_CHANGE (snd (main w))))).
  { destruct d.
    - rewrite fetch_zone_data_run in Hfetch; cbn [fst] in Hfetch.
      assert (E : exists latest,
                 latest_in (data_csv w) = Ok latest /\
                 same_counts latest (VInt a, VInt b, total) = true /\
                 main w = (Ok Skipped, snd (print NO_CHANGE w))).
      { rewrite main_run, Hfetch, Hcounts in Hrun |- *.
        destruct (latest_in (data_csv w)) as [latest|e]; [|discriminate].
        exists latest.
        destruct (same_counts latest (VInt a, VInt b, total)); [now auto|].
        destruct (header_in (data_csv w)) as [h|e]; [|discriminate].
        cbv zeta in Hrun.
        destruct (format3 (VInt a) (VInt b) total) as [[[c n] t]|e];
          discriminate. }
      destruct E as (latest & Hlatest & Hsame & ->).
      cbn [snd print]. rewrite main_run. cbn [network data_csv].
      now rewrite Hfetch, Hcounts, Hlatest, Hsame.
    - exact (proj1 (run_after_append_skips w Hwt Hfetch Hcounts Hrun)). }
  split; [exact Hskip|]. now rewrite Hskip.
Qed.

Lemma parse_counts_texts (data : value) (s t : string) (total : value) :
  parse_counts data = Ok (VStr s, VStr t, total) -> total = VStr (s ++ t).
Proof.
  unfold parse_counts.
  destruct (domain_name_counts data "comDomainNameBase") as [com|]; cbn [rbind];
    [|discriminate].
  destruct (domain_name_counts data "netDomainNameBase") as [net|]; cbn [rbind];
    [|discriminate].
  destruct (Py.add com net) as [x|] eqn:E; cbn [rbind]; [|discriminate].
  intros [= -> -> ->]. cbn in E. congruence.
Qed.

(** X12.  Counts that are texts are never deduplicated: when both counts
    of the document are strings, the total is their concatenation, no last
    row compares equal to them, and every run on a log that does not start
    with an empty line appends their row and then raises [ValueError] in
    the report line, with the row written and nothing printed. *)
Theorem text_counts_are_never_skipped (w : World) (data total : value)
    (s t : string) :
  fst (fetch_zone_data w) = Ok data ->
  parse_counts data = Ok (VStr s, VStr t, total) ->
  empty_first_row (data_csv w) = false ->
  total = VStr (s ++ t) /\
  fst (main w) = Raise ValueError /\
  data_csv (snd (main w)) =
    Some (content (data_csv w) ++
          appended (starts_with_header (data_csv w)) (clock w (ticks w))
                   (VStr s) (VStr t) (VStr (s ++ t))) /\
  stdout (snd (main w)) = stdout w.
Proof.
  intros Hfetch Hcounts Hfirst.
  rewrite fetch_zone_data_run in Hfetch; cbn [fst] in Hfetch.
  pose proof (parse_counts_texts _ Hcounts) as ->.
  split; [reflexivity|].
  destruct (other_first_row_returns _ Hfirst) as [[latest Hlatest] Hh].
  rewrite main_run, Hfetch, Hcounts, Hlatest, Hh.
  assert (Hsame : same_counts latest (VStr s, VStr t, VStr (s ++ t)) = false)
    by (destruct latest as [[[A B] T]|]; reflexivity).
  rewrite Hsame. now repeat split.
Qed.

(** X13.  What [parse_counts] raises: [TypeError], [OverflowError], or
    [KeyError] for one of its three keys, and nothing else.  A document
    that is no dictionary gives [TypeError]; a dictionary without the first
    zone gives [KeyError] for that zone, whatever else it lacks. *)
Theorem parse_counts_errors (data : value) :
  (forall e : exn,
      parse_counts data = Raise e ->
      e = TypeError \/ e = OverflowError \/
      e = KeyError "comDomainNameBase" \/ e = KeyError "netDomainNameBase" \/
      e = KeyError "domainNameCounts") /\
  ((forall items, data <> VDict items) -> parse_counts data = Raise TypeError) /\
  (forall items,
      data = VDict items -> Py.dict_get items "comDomainNameBase" = None ->
      parse_counts data = Raise (KeyError "comDomainNameBase")).
Proof.
  split; [|split].
  - intros e. unfold parse_counts, domain_name_counts.
    assert (Hget : forall (obj : value) (key : string) (e' : exn),
               Py.getitem obj key = Raise e' ->
               e' = TypeError \/ e' = KeyError key).
    { intros obj key e'. unfold Py.getitem.
      destruct obj as [| | | | | |items]; try (intros [= <-]; now left).
      destruct (Py.dict_get items key); [discriminate|].
      intros [= <-]. now right. }
    assert (Hadd : forall (x y : value) (e' : exn),
               Py.add x y = Raise e' -> e' = TypeError \/ e' = OverflowError).
    { intros x y e'. unfold Py.add, Py.float_of.
      destruct x, y; cbn [Py.as_int];
        repeat match goal with
               | |- context [float_of_int ?z] =>
                   destruct (float_of_int z); cbn [rbind]
               end;
        try discriminate; intros [= <-]; auto. }
    destruct (Py.getitem data "comDomainNameBase") as [d1|e1] eqn:E1;
      cbn [rbind].
    2:{ intros [= <-]. destruct (Hget _ _ _ E1) as [-> | ->]; auto. }
    destruct (Py.getitem d1 "domainNameCounts") as [com|e2] eqn:E2;
      cbn [rbind].
    2:{ intros [= <-]. destruct (Hget _ _ _ E2) as [-> | ->]; auto 6. }
    destruct (Py.getitem data "netDomainNameBase") as [d2|e3] eqn:E3;
      cbn [rbind].
    2:{ intros [= <-]. destruct (Hget _ _ _ E3) as [-> | ->]; auto 6. }
    destruct (Py.getitem d2 "domainNameCounts") as [net|e4] eqn:E4;
      cbn [rbind].
    2:{ intros [= <-]. destruct (Hget _ _ _ E4) as [-> | ->]; auto 6. }
    destruct (Py.add com net) as [total|e5] eqn:E5; cbn [rbind];
      [discriminate|].
    intros [= <-]. destruct (Hadd _ _ _ E5) as [-> | ->]; auto.
  - intros Hnot. destruct data as [| | | | | |items]; try reflexivity.
    now destruct (Hnot items).
  - intros items -> Hnone. unfold parse_counts, domain_name_counts, Py.getitem.
    now rewrite Hnone.
Qed.

End WholeRuns.

(** ** A log without a final line break *)

Section OpenLine.
Context `{L : PyLib}.
Import Csv.

Lemma join_cons (x : string) (xs : list string) :
  xs <> [] ->
  Str.join (String DELIMITER "") (x :: xs)
  = x ++ String DELIMITER "" ++ Str.join (String DELIMITER "") xs.
Proof. destruct xs; [congruence | reflexivity]. Qed.

(** The line of a row, followed by the line of another row: the last cell
    of the one and the first cell of the other become one cell. *)
Lemma join_glue (init : list string) (l d : string) (rest : list string) :
  Str.join (String DELIMITER "") (init ++ [l]) ++
  Str.join (String DELIMITER "") (d :: rest)
  = Str.join (String DELIMITER "") (init ++ (l ++ d) :: rest).
Proof.
  induction init as [|c init IH].
  - rewrite !app_nil_l. destruct rest as [|r rest]; [reflexivity|].
    rewrite (@join_cons d (r :: rest)), (@join_cons (l ++ d) (r :: rest))
      by discriminate.
    cbn [Str.join]. now rewrite append_assoc.
  - rewrite <- !app_comm_cons.
    rewrite (@join_cons c (init ++ [l])),
      (@join_cons c (init ++ (l ++ d) :: rest)) by (now destruct init).
    now rewrite !append_assoc, IH.
Qed.

Lemma after_cell_EOL (fs : list string) (cell : string) :
  parse_process_char (after_cell fs cell) EOL
  = Ok {| state := START_RECORD; fields := (fs ++ [cell])%list; field := "" |}.
Proof. destruct cell; reflexivity. Qed.

Lemma feed_line_cells_open (cells : list string) :
  forall fs : list string,
    cells <> [] -> forallb plain cells = true ->
    feed_line {| state := START_FIELD; fields := fs; field := "" |}
              (Str.join (String DELIMITER "") cells)
    = Ok {| state := START_RECORD; fields := (fs ++ cells)%list; field := "" |}.
Proof.
  induction cells as [|c rest IH]; intros fs Hne Hp; [congruence|].
  cbn [forallb] in Hp. apply andb_prop in Hp as [Hc Hrest].
  destruct rest as [|c2 rest].
  - cbn [Str.join]. rewrite <- (append_nil_r c) at 1.
    rewrite feed_line_cell by exact Hc.
    cbn [feed_line]. apply after_cell_EOL.
  - rewrite (@join_cons c (c2 :: rest)) by discriminate.
    rewrite feed_line_cell by exact Hc.
    cbn [String.append feed_line]. rewrite after_cell_delimiter. cbn [rbind].
    rewrite IH by (congruence || exact Hrest).
    now rewrite <- app_assoc.
Qed.

Lemma readlines_open_line (p : string) :
  p <> "" -> Str.forallb (fun c => negb (is_newline c)) p = true ->
  readlines p = [p].
Proof.
  induction p as [|c p IH]; [congruence|]. intros _.
  cbn [Str.forallb]. intros [Hc Hp]%andb_prop.
  apply negb_true_iff in Hc. unfold is_newline in Hc.
  apply orb_false_iff in Hc as [H1 H2].
  rewrite readlines_char by (now apply Ascii.eqb_neq).
  destruct p as [|c' p]; [reflexivity|].
  now rewrite IH by (discriminate || exact Hp).
Qed.

(** A last line of plain cells without line break is read as a row. *)
Lemma rows_of_open_line (cells : list string) :
  forallb plain cells = true ->
  Str.join (String DELIMITER "") cells <> "" ->
  rows_of (Str.join (String DELIMITER "") cells) = Ok [cells].
Proof.
  intros Hp Hne.
  assert (Hcells : cells <> []) by (intros ->; now apply Hne).
  pose proof (no_newline_join _ Hp) as Hnl.
  unfold rows_of, reader_list. rewrite readlines_open_line by assumption.
  cbn [reader_list_from].
  destruct (Str.join (String DELIMITER "") cells) as [|c line] eqn:Eline;
    [congruence|].
  cbn [Str.forallb] in Hnl. apply andb_prop in Hnl as [Hc _].
  apply negb_true_iff in Hc.
  rewrite feed_line_fresh by exact Hc.
  rewrite <- Eline, feed_line_cells_open by assumption.
  reflexivity.
Qed.

Lemma open_line_append (w : World) (prefix l : string)
    (init : list string) (rows : list (list string)) (a b t : Z) :
  data_csv w = Some (prefix ++ Str.join (String DELIMITER "") (init ++ [l])) ->
  well_terminated prefix = true ->
  rows_of prefix = Ok rows ->
  forallb plain (init ++ [l]) = true ->
  Str.join (String DELIMITER "") (init ++ [l]) <> "" ->
  starts_with_header (data_csv w) = true ->
  exists text' : string,
    append_to_csv (VInt a) (VInt b) (VInt t) w
    = (Ok tt, set_data_csv (Some text') (tick w)) /\
    rows_of text' =
      Ok (rows ++
          [init ++ [(l ++ isoformat (clock w (ticks w)))%string;
                    PyInt.str a; PyInt.str b; PyInt.str t]])%list.
Proof.
  intros Hfile Hwt Hrows Hp Hne Hhdr.
  assert (E : empty_first_row (data_csv w) = false).
  { unfold starts_with_header, empty_first_row in *.
    destruct (data_csv w) as [text|]; [|discriminate].
    destruct (rows_of text) as [[|[|c first] rs]|]; try discriminate.
    reflexivity. }
  destruct (other_first_row_returns _ E) as [_ Hh]. rewrite Hhdr in Hh.
  rewrite append_to_csv_run, Hh, Hfile. cbn [content].
  eexists. split; [reflexivity|].
  unfold appended. rewrite int_row_cells. cbn [String.append].
  rewrite writerow_plain by (apply int_row_plain || discriminate).
  unfold int_row. rewrite append_assoc, <- (append_assoc _ _ CRLF).
  rewrite join_glue.
  assert (Hglued : forallb plain
                     (init ++ [(l ++ isoformat (clock w (ticks w)))%string;
                               PyInt.str a; PyInt.str b; PyInt.str t])%list
                   = true).
  { rewrite forallb_app in *. apply andb_prop in Hp as [Hinit Hl].
    cbn [forallb] in *. rewrite andb_true_r in Hl.
    rewrite Hinit, plain_append, Hl, (proj1 (isoformat_plain _)),
      !(proj1 (str_plain _)). reflexivity. }
  rewrite <- writerow_plain
    by (exact Hglued || (destruct init as [|? [|? ?]]; discriminate)).
  rewrite rows_of_append, Hrows by exact Hwt. cbn [rbind].
  rewrite (proj1 (rows_of_writerow Hglued
                    ltac:(destruct init; discriminate)
                    ltac:(destruct init as [|? [|? ?]]; discriminate))).
  reflexivity.
Qed.

(** X14.  A log that does not end with a line break: when the last line
    of a log with a header row is a line of plain cells without line break,
    the appended row is joined to it.  The last cell of that line and the
    date become one cell, the three counts follow in the same row, and the
    log has as many rows after the append as before. *)
Theorem row_is_joined_to_open_line (w : World) (prefix l : string)
    (init : list string) (rows : list (list string)) (a b t : Z) :
  data_csv w = Some (prefix ++ Str.join (String DELIMITER "") (init ++ [l])) ->
  well_terminated prefix = true ->
  rows_of prefix = Ok rows ->
  forallb plain (init ++ [l]) = true ->
  Str.join (String DELIMITER "") (init ++ [l]) <> "" ->
  starts_with_header (data_csv w) = true ->
  rows_of (content (data_csv w)) = Ok (rows ++ [init ++ [l]])%list /\
  exists text' : string,
    append_to_csv (VInt a) (VInt b) (VInt t) w
    = (Ok tt, set_data_csv (Some text') (tick w)) /\
    rows_of text' =
      Ok (rows ++
          [init ++ [(l ++ isoformat (clock w (ticks w)))%string;
                    PyInt.str a; PyInt.str b; PyInt.str t]])%list.
Proof.
  intros Hfile Hwt Hrows Hp Hne Hhdr. split.
  - rewrite Hfile. cbn [content].
    rewrite rows_of_append, Hrows by exact Hwt. cbn [rbind].
    now rewrite rows_of_open_line.
  - now apply (open_line_append w prefix l init).
Qed.

End OpenLine.

(** ** After a row was joined to an open line *)

Section JoinedRow.
Context `{L : PyLib}.
Import Str PyInt.

Lemma scan_digits_dash (ds : string) :
  forall (a : Z) (b : bool) (r : string),
    forallb is_digit ds = true -> ds <> "" ->
    exists n : Z,
      scan_digits a b (ds ++ String "-" r) = Some (n, String "-" r).
Proof.
  induction ds as [|c ds IH]; intros a b r Hall Hne; [congruence|].
  cbn [forallb] in Hall. apply andb_prop in Hall as [Hc Hds].
  cbn [String.append scan_digits]. rewrite Hc.
  destruct ds as [|c' ds]; [eexists; reflexivity|].
  apply IH; [exact Hds | discriminate].
Qed.

(** Digits followed by a hyphen are no integer, with or without a sign in
    front. *)
Lemma int_digits_dash (ds r : string) :
  forallb is_digit ds = true -> ds <> "" ->
  int (ds ++ String "-" r) = None /\
  int (String "-" (ds ++ String "-" r)) = None.
Proof.
  intros Hall Hne.
  destruct (scan_digits_dash 0 false r Hall Hne) as [n Hscan].
  destruct ds as [|c ds]; [congruence|].
  pose proof Hall as Hall'. cbn [forallb] in Hall'.
  apply andb_prop in Hall' as [Hc _].
  destruct (digit_is_plain _ Hc) as [_ Hsp].
  cbn [String.append] in *. split.
  - unfold int. cbn [lstrip]. rewrite Hsp.
    replace (match String c (ds ++ String "-" r) with
             | String "+" r0 => (false, r0)
             | String "-" r0 => (true, r0)
             | _ => (false, String c (ds ++ String "-" r))
             end) with (false, String c (ds ++ String "-" r))
      by (destruct c as [[] [] [] [] [] [] [] []];
          try discriminate Hc; reflexivity).
    rewrite Hc, Hscan. reflexivity.
  - unfold int. cbn [lstrip]. change (is_space "-") with false. cbv iota.
    rewrite Hc, Hscan. reflexivity.
Qed.

Lemma zeros_digits (n : nat) : forallb is_digit (zeros n) = true.
Proof. induction n as [|n IH]; [reflexivity | exact IH]. Qed.

Lemma str_nat_digits (n : nat) :
  forallb is_digit (str (Z.of_nat n)) = true /\ str (Z.of_nat n) <> "".
Proof.
  destruct (Z.of_nat n) as [|p|p] eqn:E; [now split | | lia].
  destruct (str_N_spec p) as (ds & Eds & Hne & Hall & _). cbn [str].
  now rewrite Eds.
Qed.

(** A date starts with digits and a hyphen. *)
Lemma isoformat_digits_dash (d : Date) :
  exists ds r : string,
    isoformat d = ds ++ String "-" r /\
    forallb is_digit ds = true /\ ds <> "".
Proof.
  unfold isoformat.
  exists (pad 4 (str (Z.of_nat (year d)))). eexists. split; [reflexivity|].
  destruct (str_nat_digits (year d)) as [Hall Hne]. split.
  - unfold pad. now rewrite forallb_append, zeros_digits, Hall.
  - now apply pad_not_empty.
Qed.

(** The text of an integer followed by a date is no integer. *)
Lemma int_str_date (z : Z) (d : Date) : int (str z ++ isoformat d) = None.
Proof.
  destruct (isoformat_digits_dash d) as (ds & r & -> & Hall & Hne).
  destruct z as [|p|p].
  - change (str 0 ++ ds ++ String "-" r) with (String "0" ds ++ String "-" r).
    apply int_digits_dash; [cbn [forallb]; now rewrite Hall | discriminate].
  - destruct (str_N_spec p) as (dz & Edz & Hnz & Hallz & _). cbn [str].
    rewrite Edz, <- append_assoc.
    apply int_digits_dash; [now rewrite forallb_append, Hallz, Hall|].
    destruct dz; [congruence | discriminate].
  - destruct (str_N_spec p) as (dz & Edz & Hnz & Hallz & _). cbn [str].
    rewrite Edz. change ("-" ++ dz) with (String "-" dz).
    cbn [String.append]. rewrite <- append_assoc.
    apply int_digits_dash; [now rewrite forallb_append, Hallz, Hall|].
    destruct dz; [congruence | discriminate].
Qed.

(** X15.  Deduplication is lost after a join: when the log has a header
    row and its last line is a row of a date and three cells, the last of
    them an integer, without line break, then after an append
    [get_latest_row] returns [None]: the total and the date have become one
    cell, which is no integer, so that a following run finds no counts
    to compare with. *)
Theorem joined_row_is_not_read_back (w : World) (prefix d0 sA sB : string)
    (hdr : list string) (rows : list (list string)) (T a b t : Z) :
  data_csv w =
    Some (prefix ++
          Str.join (String Csv.DELIMITER "") [d0; sA; sB; PyInt.str T]) ->
  Csv.well_terminated prefix = true ->
  rows_of prefix = Ok (hdr :: rows) ->
  is_header_row hdr = true ->
  List.forallb plain [d0; sA; sB] = true ->
  fst (append_to_csv (VInt a) (VInt b) (VInt t) w) = Ok tt /\
  get_latest_row (snd (append_to_csv (VInt a) (VInt b) (VInt t) w))
  = (Ok None, snd (append_to_csv (VInt a) (VInt b) (VInt t) w)).
Proof.
  intros Hfile Hwt Hrows Hhdr Hp.
  assert (Hcells : List.forallb plain ([d0; sA; sB] ++ [PyInt.str T]) = true)
    by (rewrite forallb_app, Hp; cbn [List.forallb];
        now rewrite (proj1 (str_plain T))).
  assert (Hne : Str.join (String Csv.DELIMITER "")
                  ([d0; sA; sB] ++ [PyInt.str T]) <> "")
    by (cbn [app Str.join]; destruct d0; discriminate).
  assert (Hstart : starts_with_header (data_csv w) = true).
  { rewrite Hfile.
    rewrite (@starts_with_header_rows _ ((hdr :: rows) ++
               [[d0; sA; sB; PyInt.str T]])%list); [exact Hhdr|].
    rewrite rows_of_append, Hrows by exact Hwt. cbn [rbind].
    pose proof (rows_of_open_line _ Hcells Hne) as Hopen.
    cbn [app] in Hopen. now rewrite Hopen. }
  destruct (@open_line_append _ _ w prefix (PyInt.str T)
              [d0; sA; sB] (hdr :: rows) a b t Hfile Hwt Hrows Hcells Hne Hstart)
    as (text' & Happ & Hrows').
  rewrite Happ. cbn [fst snd]. split; [reflexivity|].
  rewrite get_latest_row_run. cbn [set_data_csv data_csv].
  unfold latest_in, last_data_row. fold (rows_of text'). rewrite Hrows'.
  cbn [rbind]. unfold select_data_rows. cbn [app].
  destruct hdr as [|c hdr]; [discriminate Hhdr|].
  cbn [is_header_row] in Hhdr. cbn [index nth_error rbind]. rewrite Hhdr.
  cbn [List.length tl].
  replace (1 <? S (List.length (rows ++ [_])))%nat with true
    by (symmetry; apply Nat.ltb_lt; rewrite length_app; cbn; lia).
  cbn [rbind]. rewrite last_row_app.
  cbn [List.length Nat.ltb Nat.leb].
  unfold parse_last. cbn [index nth_error rbind].
  unfold to_int. rewrite int_str_date.
  destruct (int sA); cbn [rbind]; [|reflexivity].
  destruct (int sB); reflexivity.
Qed.

End JoinedRow.

(** ** The further properties on concrete runs *)

(** X1, at a log that holds the header row only. *)
Lemma no_data_rows_no_latest_witness :
  let w := Demo.world "100 200" (Some (Demo.log ["date,com,net,total"])) in
  rows_of (Demo.log ["date,com,net,total"]) = Ok [HEADER] /\
  get_latest_row w = (Ok None, w).
Proof.
  split; [reflexivity|].
  apply (no_data_rows_no_latest
           (Demo.world "100 200" (Some (Demo.log ["date,com,net,total"])))).
  right; right.
  exists (Demo.log ["date,com,net,total"]), "date", ["com"; "net"; "total"].
  repeat split; reflexivity.
Defined.



(** X4, at an endpoint whose answer is no JSON document. *)
Lemma failed_fetch_leaves_no_trace_witness :
  let w := Demo.world "<html>" (Some (Demo.log ["date,com,net,total"])) in
  Demo.main w = (Raise JSONDecodeError, w).
Proof.
  apply (@failed_fetch_leaves_no_trace Demo.no_float Demo.lib
           (Demo.world "<html>" (Some (Demo.log ["date,com,net,total"])))
           JSONDecodeError).
  left. reflexivity.
Defined.

(** X5, at a log of a header row and one data row. *)
Lemma appended_counts_are_read_back_witness :
  let w := Demo.world "100 200"
             (Some (Demo.log ["date,com,net,total"; "2026-11-03,100,200,299"])) in
  let w' := snd (Demo.append_to_csv (VInt 100) (VInt 200) (VInt 300) w) in
  get_latest_row w' = (Ok (Some (100, 200, 300)), w').
Proof.
  apply (@appended_counts_are_read_back Demo.no_float Demo.lib
           (Demo.world "100 200"
              (Some (Demo.log ["date,com,net,total";
                               "2026-11-03,100,200,299"])))
           100 200 300); reflexivity.
Defined.

(** X6, at the same log. *)
Lemma append_keeps_rows_witness :
  let w := Demo.world "100 200"
             (Some (Demo.log ["date,com,net,total"; "2026-11-03,100,200,299"])) in
  exists text' : string,
    data_csv (snd (Demo.append_to_csv (VInt 100) (VInt 200) (VInt 300) w))
    = Some text' /\
    rows_of text' = Ok [HEADER; ["2026-11-03"; "100"; "200"; "299"];
                        ["2026-11-04"; "100"; "200"; "300"]] /\
    Csv.well_terminated text' = true.
Proof.
  apply (@append_keeps_rows Demo.no_float Demo.lib
           (Demo.world "100 200"
              (Some (Demo.log ["date,com,net,total";
                               "2026-11-03,100,200,299"])))
           100 200 300
           [HEADER; ["2026-11-03"; "100"; "200"; "299"]]); reflexivity.
Defined.

(** X7, at the same log. *)
Lemma header_row_stays_first_witness :
  let w := Demo.world "100 200"
             (Some (Demo.log ["date,com,net,total"; "2026-11-03,100,200,299"])) in
  exists (text' : string) (rows' : list (list string)),
    Demo.append_to_csv (VInt 100) (VInt 200) (VInt 300) w
    = (Ok tt, set_data_csv (Some text') (tick w)) /\
    rows_of text' = Ok rows' /\
    starts_with_header (Some text') = true /\
    header_only_first rows' = true.
Proof.
  apply (@header_row_stays_first Demo.no_float Demo.lib
           (Demo.world "100 200"
              (Some (Demo.log ["date,com,net,total";
                               "2026-11-03,100,200,299"])))
           100 200 300
           [HEADER; ["2026-11-03"; "100"; "200"; "299"]]);
    [reflexivity | reflexivity | right; reflexivity | reflexivity].
Defined.

(** X8, at a log of one data row and no header row. *)
Lemma header_after_headerless_rows_witness :
  let w := Demo.world "100 200" (Some (Demo.log ["2026-11-03,100,200,299"])) in
  exists text' : string,
    Demo.append_to_csv (VInt 100) (VInt 200) (VInt 300) w
    = (Ok tt, set_data_csv (Some text') (tick w)) /\
    rows_of text' = Ok [["2026-11-03"; "100"; "200"; "299"]; HEADER;
                        ["2026-11-04"; "100"; "200"; "300"]] /\
    starts_with_header (Some text') = false.
Proof.
  apply (@header_after_headerless_rows Demo.no_float Demo.lib
           (Demo.world "100 200" (Some (Demo.log ["2026-11-03,100,200,299"])))
           (Demo.log ["2026-11-03,100,200,299"])
           "2026-11-03" ["100"; "200"; "299"] [] 100 200 300); reflexivity.
Defined.


(** X11, at a first run on no log. *)
Lemma next_run_skips_witness :
  let w := Demo.world "100 200" None in
  fst (Demo.main w) = Ok Appended /\
  Demo.main (snd (Demo.main w))
  = (Ok Skipped, snd (print NO_CHANGE (snd (Demo.main w)))) /\
  data_csv (snd (Demo.main (snd (Demo.main w)))) = data_csv (snd (Demo.main w)).
Proof.
  split; [reflexivity|].
  apply (@next_run_skips Demo.no_float Demo.lib (Demo.world "100 200" None)
           (zone_counts (VInt 100) (VInt 200)) (VInt 300) 100 200 Appended);
    reflexivity.
Defined.

(** X12, at the counts ['1'] and ['2'] and no log. *)
Lemma text_counts_are_never_skipped_witness :
  let w := Demo.world "'1' '2'" None in
  @VStr Demo.no_float "12" = VStr ("1" ++ "2") /\
  fst (Demo.main w) = Raise ValueError /\
  data_csv (snd (Demo.main w)) =
    Some (Demo.log ["date,com,net,total"; "2026-11-04,1,2,12"]) /\
  stdout (snd (Demo.main w)) = stdout w.
Proof.
  apply (@text_counts_are_never_skipped Demo.no_float Demo.lib
           (Demo.world "'1' '2'" None)
           (zone_counts (VStr "1") (VStr "2")) (VStr "12") "1" "2");
    reflexivity.
Defined.

(** X13, at the empty dictionary. *)
Lemma parse_counts_errors_witness :
  Demo.parse_counts (VDict []) = Raise (KeyError "comDomainNameBase").
Proof.
  apply (proj2 (proj2 (@parse_counts_errors Demo.no_float (VDict []))) []);
    reflexivity.
Defined.

(** X14, at a log whose last line has no line break. *)
Lemma row_is_joined_to_open_line_witness :
  let text := Demo.log ["date,com,net,total"] ++ "2026-11-03,100,200,299" in
  let w := Demo.world "100 200" (Some text) in
  rows_of text = Ok [HEADER; ["2026-11-03"; "100"; "200"; "299"]] /\
  exists text' : string,
    Demo.append_to_csv (VInt 100) (VInt 200) (VInt 300) w
    = (Ok tt, set_data_csv (Some text') (tick w)) /\
    rows_of text' =
      Ok [HEADER;
          ["2026-11-03"; "100"; "200"; "2992026-11-04"; "100"; "200"; "300"]].
Proof.
  apply (@row_is_joined_to_open_line Demo.no_float Demo.lib
           (Demo.world "100 200"
              (Some (Demo.log ["date,com,net,total"] ++
                     "2026-11-03,100,200,299")))
           (Demo.log ["date,com,net,total"]) "299"
           ["2026-11-03"; "100"; "200"] [HEADER] 100 200 300);
    try reflexivity.
  discriminate.
Defined.

(** X15, at the same log. *)
Lemma joined_row_is_not_read_back_witness :
  let text := Demo.log ["date,com,net,total"] ++ "2026-11-03,100,200,299" in
  let w := Demo.world "100 200" (Some text) in
  let w' := snd (Demo.append_to_csv (VInt 100) (VInt 200) (VInt 300) w) in
  fst (Demo.append_to_csv (VInt 100) (VInt 200) (VInt 300) w) = Ok tt /\
  get_latest_row w' = (Ok None, w').
Proof.
  apply (@joined_row_is_not_read_back Demo.no_float Demo.lib
           (Demo.world "100 200"
              (Some (Demo.log ["date,com,net,total"] ++
                     "2026-11-03,100,200,299")))
           (Demo.log ["date,com,net,total"]) "2026-11-03" "100" "200"
           HEADER [] 299 100 200 300); reflexivity.
Defined.
